(** * serve2d: handler construction and content-matching decisions

    A shallow embedding of [serve2d.go] (the configurable front-end of the
    serve2 protocol dispatcher) and the properties of its handler factory,
    its static file handler and its TLS matcher callbacks. *)

From Stdlib Require Import ZArith String Ascii List Bool Lia.
From stdpp Require Import gmap strings.

Local Open Scope string_scope.
Local Open Scope list_scope.

(** ** Go's [path] package

    [path.Clean] and [path.Join] belong to Go's standard library.  They are
    modelled on path elements: the input is cut at every slash, the elements
    are pushed on a stack ([..] pops a real element, or stays when the path
    is not rooted and nothing can be popped), and the stack is rendered
    again. *)

Module path.

Definition slash : ascii := "/"%char.

(** [strings.Split(s, "/")]: never empty, and no element holds a slash. *)
Fixpoint split (s : string) : list string :=
  match s with
  | EmptyString => [ "" ]
  | String c s' =>
      if Ascii.eqb c slash then "" :: split s'
      else match split s' with
           | e :: es => String c e :: es
           | [] => [ String c "" ]
           end
  end.

(** [strings.Join(es, "/")]. *)
Fixpoint join (es : list string) : string :=
  match es with
  | [] => ""
  | [ e ] => e
  | e :: es' => e +:+ "/" +:+ join es'
  end.

Definition rooted (s : string) : bool :=
  match s with
  | String c _ => Ascii.eqb c slash
  | EmptyString => false
  end.

(** One element of the input against the stack of elements kept so far
    (most recent first). *)
Definition step (isRooted : bool) (stack : list string) (e : string)
  : list string :=
  if String.eqb e "" then stack
  else if String.eqb e "." then stack
  else if String.eqb e ".." then
    match stack with
    | top :: rest =>
        if String.eqb top ".." then e :: stack else rest
    | [] => if isRooted then [] else [ e ]
    end
  else e :: stack.

Definition elems (s : string) : list string :=
  rev (fold_left (step (rooted s)) (split s) []).

Definition render (isRooted : bool) (es : list string) : string :=
  if isRooted then String slash (join es)
  else match es with
       | [] => "."
       | _ => join es
       end.

Definition Clean (s : string) : string :=
  if String.eqb s "" then "." else render (rooted s) (elems s).

(** [path.Join]: empty elements are ignored, the rest is joined with
    slashes and cleaned; the result is empty when every element is. *)
Definition Join (elem : list string) : string :=
  match List.filter (fun e => negb (String.eqb e "")) elem with
  | [] => ""
  | es => Clean (join es)
  end.

End path.

(** ** Values and results *)

(** What [ioutil.ReadFile], [os.OpenFile], [net.Listen] and the like give
    back: a value or an [error]. *)
Inductive result (A : Type) : Type :=
| Success (a : A)
| Failure (err : string).
Arguments Success {A} a.
Arguments Failure {A} err.

(** The dynamic values [encoding/json] stores in an [interface{}]:
    [nil], [bool], [float64], [string], [[]interface{}] and
    [map[string]interface{}].  No option of a handler is a number, so a
    number keeps the text of its literal. *)
#[warnings="-register-all"]
Inductive dyn : Type :=
| DNil
| DBool (b : bool)
| DNum (literal : string)
| DStr (s : string)
| DList (l : list dyn)
| DMap (m : list (string * dyn)).

(** The type assertions [x.(string)], [x.(bool)] and [x.([]interface{})]
    in their comma-ok form, applied to a map lookup: a missing key gives
    the nil interface, on which every assertion fails. *)
Definition asString (x : option dyn) : option string :=
  match x with
  | Some (DStr s) => Some s
  | _ => None
  end.

Definition asBool (x : option dyn) : option bool :=
  match x with
  | Some (DBool b) => Some b
  | _ => None
  end.

Definition asSlice (x : option dyn) : option (list dyn) :=
  match x with
  | Some (DList l) => Some l
  | _ => None
  end.

(** ** Configuration *)

(** Protocol is the part of config defining individual protocols. *)
Record Protocol : Type := {
  Kind : string;
  AsDefault : bool;
  Conf : gmap string dyn
}.

(** Config is the top-level config. *)
Record Config : Type := {
  Address : string;
  LogStdout : bool;
  LogFile : string;
  MaxRead : Z;
  Protocols : list Protocol
}.

(** ** Connections, crypto/tls and the serve2 library *)

Module tls.

(** The part of [tls.ConnectionState] the program reads. *)
Record ConnectionState : Type := {
  ServerName : string;
  NegotiatedProtocol : string;
  NegotiatedProtocolIsMutual : bool
}.

(** The fields of [tls.Config] the program sets. *)
Record Config : Type := {
  cfgServerName : string;
  NextProtos : list string;
  InsecureSkipVerify : bool
}.

End tls.

(** An entry of a connection's hint chain: a [*tls.Conn] with its
    connection state, or some other layer. *)
Inductive hint : Type :=
| HintTLS (cs : tls.ConnectionState)
| HintOther (layer : string).

(** A [net.Conn] as the handlers see it: the chain [utils.GetHints]
    returns for it, oldest entry first. *)
Record Conn : Type := {
  connId : nat;
  hints : list hint
}.

Module utils.

Definition GetHints (c : Conn) : list hint := hints c.

(** The two dial helpers of the serve2 library, as the calls a callback
    makes: which connection is proxied where, and with which TLS client
    configuration. *)
Inductive dial : Type :=
| DialAndProxy (c : Conn) (network target : string)
| DialAndProxyTLS (c : Conn) (network target : string) (cfg : tls.Config).

End utils.

Record httpHandler : Type := {
  path : string;
  defaultFile : string;
  notFoundMsg : string
}.

Module proto.

(** Modelled from the spec: the bit flags of [proto.TLSMatcherChecks],
    declared in the serve2 library; one bit per check. *)
Definition TLSCheckServerName : Z := 1.
Definition TLSCheckNegotiatedProtocol : Z := 2.
Definition TLSCheckNegotiatedProtocolIsMutual : Z := 4.

Record TLSMatcher : Type := {
  ServerNames : list string;
  NegotiatedProtocols : list string;
  NegotiatedProtocolIsMutual : bool;
  Checks : Z;
  Description : string;
  cb : Conn -> utils.dial
}.

Definition NewTLSMatcher (cb : Conn -> utils.dial) : TLSMatcher :=
  {| ServerNames := []; NegotiatedProtocols := [];
     NegotiatedProtocolIsMutual := false; Checks := 0;
     Description := ""; cb := cb |}.

Definition setServerNames (names : list string) (t : TLSMatcher)
  : TLSMatcher :=
  {| ServerNames := names; NegotiatedProtocols := NegotiatedProtocols t;
     NegotiatedProtocolIsMutual := NegotiatedProtocolIsMutual t;
     Checks := Checks t; Description := Description t; cb := cb t |}.

Definition setNegotiatedProtocols (names : list string) (t : TLSMatcher)
  : TLSMatcher :=
  {| ServerNames := ServerNames t; NegotiatedProtocols := names;
     NegotiatedProtocolIsMutual := NegotiatedProtocolIsMutual t;
     Checks := Checks t; Description := Description t; cb := cb t |}.

Definition setNegotiatedProtocolIsMutual (b : bool) (t : TLSMatcher)
  : TLSMatcher :=
  {| ServerNames := ServerNames t;
     NegotiatedProtocols := NegotiatedProtocols t;
     NegotiatedProtocolIsMutual := b;
     Checks := Checks t; Description := Description t; cb := cb t |}.

Definition setChecks (checks : Z) (t : TLSMatcher) : TLSMatcher :=
  {| ServerNames := ServerNames t;
     NegotiatedProtocols := NegotiatedProtocols t;
     NegotiatedProtocolIsMutual := NegotiatedProtocolIsMutual t;
     Checks := checks; Description := Description t; cb := cb t |}.

Definition setDescription (d : string) (t : TLSMatcher) : TLSMatcher :=
  {| ServerNames := ServerNames t;
     NegotiatedProtocols := NegotiatedProtocols t;
     NegotiatedProtocolIsMutual := NegotiatedProtocolIsMutual t;
     Checks := Checks t; Description := d; cb := cb t |}.

(** The handlers the library constructs, each with the arguments
    [main] passes to its constructor. *)
Inductive ProtocolHandler : Type :=
| NewProxy (magic : list Byte.byte) (network target : string)
| NewMultiProxy (magics : list (list Byte.byte)) (network target : string)
| NewTLS (protos : list string) (cert key : string)
| OfTLSMatcher (t : TLSMatcher)
| NewHTTP (h : httpHandler)
| NewEcho
| NewDiscard.

End proto.

Module serve2.

(** The fields of [serve2.Server] that [main] assigns, and [handlers]:
    the arguments of the calls of [AddHandler], in the order of the
    calls. *)
Record Server : Type := {
  BytesToCheck : Z;
  Logger : bool;
  DefaultProtocol : option proto.ProtocolHandler;
  handlers : list proto.ProtocolHandler
}.

(** [serve2.New] of the serve2 library: no detector, no default protocol,
    no logger, and the read size the README gives as its default, 128. *)
Definition New : Server :=
  {| BytesToCheck := 128; Logger := false;
     DefaultProtocol := None; handlers := [] |}.

Definition setBytesToCheck (n : Z) (s : Server) : Server :=
  {| BytesToCheck := n; Logger := Logger s;
     DefaultProtocol := DefaultProtocol s; handlers := handlers s |}.

Definition setLogger (b : bool) (s : Server) : Server :=
  {| BytesToCheck := BytesToCheck s; Logger := b;
     DefaultProtocol := DefaultProtocol s; handlers := handlers s |}.

Definition setDefaultProtocol (h : option proto.ProtocolHandler)
    (s : Server) : Server :=
  {| BytesToCheck := BytesToCheck s; Logger := Logger s;
     DefaultProtocol := h; handlers := handlers s |}.

(** A call of [Server.AddHandler]: the handler is recorded after those
    of the calls before (the dispatcher tries its detectors in the order
    of registration). *)
Definition AddHandler (h : proto.ProtocolHandler) (s : Server) : Server :=
  {| BytesToCheck := BytesToCheck s; Logger := Logger s;
     DefaultProtocol := DefaultProtocol s;
     handlers := handlers s ++ [ h ] |}.

End serve2.

(** ** The static file handler *)

Record Request : Type := {
  Method : string;
  URLPath : string
}.

(** [http.ResponseWriter]: the status is fixed by the first [WriteHeader]
    or, implicitly as 200, by the first write of the body. *)
Record ResponseWriter : Type := {
  status : option Z;
  body : string
}.

Definition WriteHeader (code : Z) (w : ResponseWriter) : ResponseWriter :=
  match status w with
  | Some _ => w
  | None => {| status := Some code; body := body w |}
  end.

Definition Fprintf_s (s : string) (w : ResponseWriter) : ResponseWriter :=
  {| status := Some (default 200%Z (status w)); body := body w +:+ s |}.

(** The status the server sends once the handler has returned. *)
Definition finalStatus (w : ResponseWriter) : Z := default 200%Z (status w).

(** An argument of a log line. *)
Inductive logArg : Type :=
| LStr (s : string)
| LInt (n : Z)
| LHandler (h : proto.ProtocolHandler).

(** What one call of [ServeHTTP] did: the response, the files it tried to
    read, and what it handed to [logit]. *)
Record Exchange : Type := {
  resp : ResponseWriter;
  reads : list string;
  logged : list (string * list logArg)
}.

(** The file name [ServeHTTP] reads for a request path. *)
Definition resolve (h : httpHandler) (urlPath : string) : string :=
  (* We add the "./" to make things relative *)
  let p := "." +:+ path.Clean urlPath in
  let p := if String.eqb p "./" then p +:+ defaultFile h else p in
  (* We then put the origin on there *)
  path.Join [ path h; p ].

Definition ServeHTTP (h : httpHandler) (readFile : string -> result string)
    (r : Request) : Exchange :=
  let w := {| status := None; body := "" |} in
  if String.eqb (Method r) "OPTIONS" then
    {| resp := w; reads := []; logged := [] |}
  else
    let p := resolve h (URLPath r) in
    match readFile p with
    | Failure err =>
        {| resp := Fprintf_s (notFoundMsg h) (WriteHeader 404 w);
           reads := [ p ];
           logged := [ ("http could not read file %s: %v",
                        [ LStr p; LStr err ]) ] |}
    | Success content =>
        {| resp := Fprintf_s content w; reads := [ p ]; logged := [] |}
    end.

(** ** The process: globals, outside world and panics *)

(** The calls [main] makes on the outside world, in the order it makes
    them.  [EvListen] records whether the listening socket was opened. *)
Inductive Event : Type :=
| EvReadFile (name : string)
| EvOpenFile (name : string)
| EvLog (format : string) (args : list logArg)
| EvListen (address : string) (opened : bool)
| EvLoadKeyPair (cert key : string)
| EvServe (address : string).

(** The package-level variables [server], [confReady] and [logger], the
    output of package [log], and the calls made so far. *)
Record World : Type := {
  server : serve2.Server;
  confReady : bool;
  logger : bool;
  logOutput : option string;
  trace : list Event
}.

Definition initial : World :=
  {| server := serve2.New; confReady := false; logger := false;
     logOutput := None; trace := [] |}.

(** What the process is started with and what the system answers:
    [os.Args], [ioutil.ReadFile], [json.Unmarshal] into a [Config],
    [os.OpenFile] on the log file, [net.Listen], and the loading of the
    certificate and key by [proto.NewTLS]. *)
Record Env : Type := {
  Args : list string;
  ReadFile : string -> result string;
  Unmarshal : string -> result Config;
  OpenFile : string -> result unit;
  Listen : string -> result unit;
  LoadKeyPair : string -> string -> result unit
}.

(** A step of [main] either yields a value or panics; the world it leaves
    behind is kept in both cases. *)
Inductive outcome (A : Type) : Type :=
| Ok (a : A)
| Panic (v : string).
Arguments Ok {A} a.
Arguments Panic {A} v.

Definition M (A : Type) : Type := World -> outcome A * World.

#[global] Instance M_ret : MRet M := fun A a w => (Ok a, w).

#[global] Instance M_bind : MBind M := fun A B f m w =>
  match m w with
  | (Ok a, w') => f a w'
  | (Panic v, w') => (Panic v, w')
  end.

Definition panic {A : Type} (v : string) : M A := fun w => (Panic v, w).

Definition emit (e : Event) : M unit := fun w =>
  (Ok tt, {| server := server w; confReady := confReady w;
             logger := logger w; logOutput := logOutput w;
             trace := trace w ++ [ e ] |}).

Definition getServer : M serve2.Server := fun w => (Ok (server w), w).

Definition setServer (s : serve2.Server) : M unit := fun w =>
  (Ok tt, {| server := s; confReady := confReady w; logger := logger w;
             logOutput := logOutput w; trace := trace w |}).

Definition setConfReady (b : bool) : M unit := fun w =>
  (Ok tt, {| server := server w; confReady := b; logger := logger w;
             logOutput := logOutput w; trace := trace w |}).

Definition setLogger (b : bool) : M unit := fun w =>
  (Ok tt, {| server := server w; confReady := confReady w; logger := b;
             logOutput := logOutput w; trace := trace w |}).

Definition setOutput (file : string) : M unit := fun w =>
  (Ok tt, {| server := server w; confReady := confReady w;
             logger := logger w; logOutput := Some file;
             trace := trace w |}).

Definition when (b : bool) (m : M unit) : M unit :=
  if b then m else mret tt.

Definition logit (format : string) (msg : list logArg) : M unit := fun w =>
  if logger w || negb (confReady w) then emit (EvLog format msg) w
  else (Ok tt, w).

(** [for i := range xs] with a body that may panic, collecting one value
    per element. *)
Fixpoint forEach {A B : Type} (f : A -> M B) (xs : list A) : M (list B) :=
  match xs with
  | [] => mret []
  | x :: xs' => y ← f x; ys ← forEach f xs'; mret (y :: ys)
  end.

(** [x.(string)] on an element of a list, with the panic of a failed
    assertion. *)
Definition stringOr (message : string) (x : dyn) : M string :=
  match x with
  | DStr s => mret s
  | _ => panic message
  end.

Definition bytesOf (s : string) : list Byte.byte := list_byte_of_string s.

Definition isSome {A : Type} (o : option A) : bool :=
  match o with
  | Some _ => true
  | None => false
  end.

(** The value of a comma-ok assertion that must hold, with the panic of
    the check that follows it. *)
Definition need {A : Type} (o : option A) (message : string) : M A :=
  match o with
  | Some a => mret a
  | None => panic message
  end.

Definition readFile (env : Env) (name : string) : M (result string) :=
  emit (EvReadFile name);; mret (ReadFile env name).

(** ** The handler factory: the [switch v.Kind] of [main] *)

Section Factory.

Variable env : Env.
Variable conf : gmap string dyn.

Definition buildProxy : M proto.ProtocolHandler :=
  let magic := asString (conf !! "magic") in
  let magicSlice := asSlice (conf !! "magic") in
  when (negb (isSome magic) && negb (isSome magicSlice))
    (panic "Proxy declaration is missing valid magic");;
  target ← need (asString (conf !! "target"))
                "Proxy declaration is missing valid target";
  match magic with
  | Some magic => mret (proto.NewProxy (bytesOf magic) "tcp" target)
  | None =>
      magics ← forEach
                 (fun x => magic ← stringOr "magic declaration invalid" x;
                           mret (bytesOf magic))
                 (default [] magicSlice);
      mret (proto.NewMultiProxy magics "tcp" target)
  end.

Definition buildTLS : M proto.ProtocolHandler :=
  cert ← need (asString (conf !! "cert"))
              "TLS declaration is missing valid certificate";
  key ← need (asString (conf !! "key"))
             "TLS declaration is missing valid key";
  y ← need (asSlice (conf !! "protos")) "TLS protos declaration invalid";
  protos ← forEach (stringOr "TLS protos declaration invalid") y;
  emit (EvLoadKeyPair cert key);;
  match LoadKeyPair env cert key with
  | Failure err => logit "TLS configuration failed" [];; panic err
  | Success _ => mret (proto.NewTLS protos cert key)
  end.

(** The callback of a matcher that dials in plaintext. *)
Definition cbPlain (target : string) (c : Conn) : utils.dial :=
  utils.DialAndProxy c "tcp" target.

(** The callback of a matcher that dials with TLS. *)
Definition cbTLS (target : string) (c : Conn) : utils.dial :=
  let hints := utils.GetHints c in
  let '(serverName, proto) :=
    if (0 <? length hints)%nat then
      match hints !! (length hints - 1)%nat with
      | Some (HintTLS cs) =>
          (tls.ServerName cs, tls.NegotiatedProtocol cs)
      | _ => ("", "")
      end
    else ("", "") in
  utils.DialAndProxyTLS c "tcp" target
    {| tls.cfgServerName := serverName;
       tls.NextProtos := [ proto ];
       tls.InsecureSkipVerify := true |}.

Definition buildTLSMatcher : M proto.ProtocolHandler :=
  target ← need (asString (conf !! "target"))
                "TLSMatcher declaration is missing valid target";
  let dialTLS := asBool (conf !! "dialTLS") in
  let cb :=
    if negb (isSome dialTLS) || negb (default false dialTLS)
    then cbPlain target else cbTLS target in
  let t := proto.NewTLSMatcher cb in
  let checks := 0%Z in
  '(checks, t) ←
    match asSlice (conf !! "serverNames") with
    | Some sn =>
        names ← forEach
                  (stringOr "TLSMatcher serverNames declaration invalid") sn;
        mret (Z.lor checks proto.TLSCheckServerName,
              proto.setServerNames names t)
    | None => mret (checks, t)
    end;
  '(checks, t) ←
    match asSlice (conf !! "negotiatedProtocols") with
    | Some np =>
        names ← forEach
                  (stringOr
                     "TLSMatcher negotiatedProtocols declaration invalid")
                  np;
        mret (Z.lor checks proto.TLSCheckNegotiatedProtocol,
              proto.setNegotiatedProtocols names t)
    | None => mret (checks, t)
    end;
  let '(checks, t) :=
    match asBool (conf !! "negotiatedProtocolIsMutual") with
    | Some npm =>
        (Z.lor checks proto.TLSCheckNegotiatedProtocolIsMutual,
         proto.setNegotiatedProtocolIsMutual npm t)
    | None => (checks, t)
    end in
  let t := proto.setChecks checks t in
  let t := proto.setDescription ("TLSMatcher [dest: " +:+ target +:+ "]") t in
  mret (proto.OfTLSMatcher t).

Definition default404 : string :=
  "<!DOCTYPE html><html><body><h1>404</h1></body></html>".

Definition buildHTTP : M proto.ProtocolHandler :=
  let msg := conf !! "notFoundMsg" in
  let filename := conf !! "notFoundFile" in
  when (isSome filename && isSome msg)
    (panic "HTTP notFoundMsg and notFoundFile declared simultaneously");;
  notFound ←
    (if negb (isSome msg) && negb (isSome filename) then mret default404
     else if isSome msg then
       need (asString msg) "HTTP notFoundMsg declaration invalid"
     else if isSome filename then
       f ← need (asString filename) "HTTP notFoundFile declaration invalid";
       x ← readFile env f;
       match x with
       | Failure err =>
           logit "HTTP unable to open notFoundFile" [];; panic err
       | Success x => mret x
       end
     else mret "");
  c ← match conf !! "defaultFile" with
      | None => mret "index.html"
      | Some c => need (asString (Some c)) "HTTP defaultFile declaration invalid"
      end;
  p ← need (asString (conf !! "path")) "HTTP path declaration invalid";
  mret (proto.NewHTTP
          {| path := p; defaultFile := c; notFoundMsg := notFound |}).

End Factory.

Definition buildHandler (env : Env) (v : Protocol)
  : M proto.ProtocolHandler :=
  let kind := Kind v in
  if String.eqb kind "proxy" then buildProxy (Conf v)
  else if String.eqb kind "tls" then buildTLS env (Conf v)
  else if String.eqb kind "tlsmatcher" then buildTLSMatcher (Conf v)
  else if String.eqb kind "http" then buildHTTP env (Conf v)
  else if String.eqb kind "echo" then mret proto.NewEcho
  else if String.eqb kind "discard" then mret proto.NewDiscard
  else panic ("Unknown kind: " +:+ kind).

(** The end of the loop body: the handler becomes the default protocol
    or one more detector. *)
Definition register (v : Protocol) (handler : proto.ProtocolHandler)
  : M unit :=
  s ← getServer;
  if AsDefault v then setServer (serve2.setDefaultProtocol (Some handler) s)
  else setServer (serve2.AddHandler handler s).

(** [for _, v := range conf.Protocols]. *)
Fixpoint configure (env : Env) (protocols : list Protocol) : M unit :=
  match protocols with
  | [] => mret tt
  | v :: rest =>
      handler ← buildHandler env v;
      register v handler;;
      configure env rest
  end.

(** ** [main] *)

(** [main] up to and including [net.Listen]. *)
Definition startup (env : Env) : M Config :=
  when (length (Args env) <=? 1)%nat (panic "Missing configuration path");;
  let path := nth 1 (Args env) "" in
  bytes ← readFile env path;
  bytes ← match bytes with
          | Failure err => logit "Reading configuration failed" [];; panic err
          | Success bytes => mret bytes
          end;
  conf ← match Unmarshal env bytes with
         | Failure err => logit "Parsing configuration failed" [];; panic err
         | Success conf => mret conf
         end;
  setConfReady true;;
  setServer serve2.New;;
  when (LogStdout conf && negb (String.eqb (LogFile conf) ""))
    (panic "Unable to both log to stdout and to logfile");;
  when (LogStdout conf || negb (String.eqb (LogFile conf) ""))
    (when (negb (String.eqb (LogFile conf) ""))
       (emit (EvOpenFile (LogFile conf));;
        match OpenFile env (LogFile conf) with
        | Failure err =>
            logit "Failed to open logfile: %s" [ LStr (LogFile conf) ];;
            panic err
        | Success _ => setOutput (LogFile conf)
        end);;
     setLogger true;;
     s ← getServer;
     setServer (serve2.setLogger true s));;
  when (negb (MaxRead conf =? 0)%Z)
    (s ← getServer; setServer (serve2.setBytesToCheck (MaxRead conf) s));;
  s ← getServer;
  logit "Maximum buffer size: %d" [ LInt (serve2.BytesToCheck s) ];;
  match Listen env (Address conf) with
  | Failure err =>
      emit (EvListen (Address conf) false);;
      logit "Listen on [%s] failed" [ LStr (Address conf) ];;
      panic err
  | Success _ =>
      emit (EvListen (Address conf) true);;
      logit "Listening on: %s" [ LStr (Address conf) ];;
      mret conf
  end.

(** The body of [main], before its deferred [recover]. *)
Definition mainBody (env : Env) : M unit :=
  conf ← startup env;
  configure env (Protocols conf);;
  s ← getServer;
  match serve2.DefaultProtocol s with
  | Some h => logit "Default protocol set to: %v" [ LHandler h ]
  | None => mret tt
  end;;
  emit (EvServe (Address conf)).

(** [main] with its deferred function: a panic is handed to [logit] and
    the process ends. *)
Definition main (env : Env) : World :=
  match mainBody env initial with
  | (Ok _, w) => w
  | (Panic v, w) => snd (logit "Panicked: %s" [ LStr v ] w)
  end.

(** ** The matching rules of the serve2 library *)

Module matching.

(** [bytes.HasPrefix]. *)
Fixpoint hasPrefix (s prefix : list Byte.byte) {struct prefix} : bool :=
  match prefix, s with
  | [], _ => true
  | p :: prefix', c :: s' => Byte.eqb p c && hasPrefix s' prefix'
  | _ :: _, [] => false
  end.

(** Modelled from the spec: the matching rule of the proxy handlers,
    whose code is in the serve2 library.  A connection is claimed when
    the buffered bytes begin with one of the patterns, and the first
    pattern in declared order that matches is the one selected. *)
Definition selected (magics : list (list Byte.byte))
    (buffered : list Byte.byte) : option (list Byte.byte) :=
  List.find (hasPrefix buffered) magics.

Definition magicsOf (h : proto.ProtocolHandler) : list (list Byte.byte) :=
  match h with
  | proto.NewProxy magic _ _ => [ magic ]
  | proto.NewMultiProxy magics _ _ => magics
  | _ => []
  end.

Definition claims (h : proto.ProtocolHandler) (buffered : list Byte.byte)
  : bool :=
  isSome (selected (magicsOf h) buffered).

(** Whether a check is switched on in the bit mask of a matcher. *)
Definition enabled (t : proto.TLSMatcher) (check : Z) : bool :=
  negb (Z.land (proto.Checks t) check =? 0)%Z.

(** Modelled from the spec: the match predicate of the TLS matcher,
    whose code is in the serve2 library, on the metadata of a
    TLS-terminated connection.  Every enabled check must pass; a check
    that is not enabled is satisfied. *)
Definition matches (t : proto.TLSMatcher) (cs : tls.ConnectionState)
  : bool :=
  (if enabled t proto.TLSCheckServerName
   then existsb (String.eqb (tls.ServerName cs)) (proto.ServerNames t)
   else true)
  && (if enabled t proto.TLSCheckNegotiatedProtocol
      then existsb (String.eqb (tls.NegotiatedProtocol cs))
             (proto.NegotiatedProtocols t)
      else true)
  && (if enabled t proto.TLSCheckNegotiatedProtocolIsMutual
      then Bool.eqb (tls.NegotiatedProtocolIsMutual cs)
             (proto.NegotiatedProtocolIsMutual t)
      else true).

End matching.

(** ** Whether a path lies under a root *)

(** The elements of [p] begin with the elements of the root and go on
    without any [..]; both are rooted or both are not. *)
Fixpoint underElems (root p : list string) : bool :=
  match root, p with
  | [], _ => forallb (fun e => negb (String.eqb e "..")) p
  | r :: root', e :: p' => String.eqb r e && underElems root' p'
  | _ :: _, [] => false
  end.

Definition underRoot (root p : string) : bool :=
  Bool.eqb (path.rooted root) (path.rooted p)
  && underElems (path.elems root) (path.elems p).

(** ** Vocabulary of the statements *)

(** The strings of a list of dynamic values, when all of them are. *)
Fixpoint strings (xs : list dyn) : option (list string) :=
  match xs with
  | [] => Some []
  | DStr s :: xs' => option_map (cons s) (strings xs')
  | _ :: _ => None
  end.

(** An optional list option is acceptable when it is absent, is not a
    list at all, or is a list of strings. *)
Definition listOfStringsOrNoList (x : option dyn) : bool :=
  match asSlice x with
  | Some l => isSome (strings l)
  | None => true
  end.

(** The kinds the factory knows. *)
Definition recognized (kind : string) : bool :=
  existsb (String.eqb kind)
    [ "proxy"; "tls"; "tlsmatcher"; "http"; "echo"; "discard" ].

(** The handler the factory gives for a protocol, or its panic. *)
Definition handlerOf (env : Env) (v : Protocol)
  : outcome proto.ProtocolHandler :=
  fst (buildHandler env v initial).

(** The server after the end of one loop body. *)
Definition registerIn (s : serve2.Server) (v : Protocol)
    (h : proto.ProtocolHandler) : serve2.Server :=
  if AsDefault v then serve2.setDefaultProtocol (Some h) s
  else serve2.AddHandler h s.

(** The handlers of the protocols that are not marked default. *)
Fixpoint detectors (ps : list Protocol) (hs : list proto.ProtocolHandler)
  : list proto.ProtocolHandler :=
  match ps, hs with
  | v :: ps', h :: hs' =>
      if AsDefault v then detectors ps' hs' else h :: detectors ps' hs'
  | _, _ => []
  end.

(** The listening socket has been opened. *)
Definition listenerOpened (w : World) : Prop :=
  exists address, In (EvListen address true) (trace w).

(** [Serve] has been called. *)
Definition served (w : World) : Prop :=
  exists address, In (EvServe address) (trace w).

(** An event other than opening the socket and serving on it. *)
Definition quiet (e : Event) : bool :=
  match e with
  | EvListen _ _ | EvServe _ => false
  | _ => true
  end.

Definition notServe (e : Event) : bool :=
  match e with
  | EvServe _ => false
  | _ => true
  end.

(** A step whose result does not depend on the world, which leaves the
    server alone, and which adds quiet events only. *)
Definition steady {A : Type} (m : M A) : Prop :=
  forall w,
    fst (m w) = fst (m initial) /\
    server (snd (m w)) = server w /\
    exists extra, trace (snd (m w)) = trace w ++ extra
                  /\ forallb quiet extra = true.

(** A step that only adds events, none of them a call of [Serve]. *)
Definition grows {A : Type} (m : M A) : Prop :=
  forall w, exists extra,
    trace (snd (m w)) = trace w ++ extra /\ forallb notServe extra = true.

Fixpoint slashFree (s : string) : bool :=
  match s with
  | EmptyString => true
  | String c s' => negb (Ascii.eqb c path.slash) && slashFree s'
  end.

(** A path element that [Clean] keeps as it is. *)
Definition real (e : string) : bool :=
  negb (String.eqb e "") && negb (String.eqb e ".")
  && negb (String.eqb e "..") && slashFree e.

Definition notDotDot (e : string) : bool := negb (String.eqb e "..").

(** Begins with a byte that is not a slash. *)
Definition startsPlain (e : string) : bool :=
  match e with
  | String c _ => negb (Ascii.eqb c path.slash)
  | EmptyString => false
  end.

(** The stacks of [path.step]: real elements on top of the [..] elements
    that begin a path which is not rooted. *)
Inductive good (isRooted : bool) : list string -> Prop :=
| good_dots (k : nat) :
    (isRooted = true -> k = 0%nat) -> good isRooted (repeat ".." k)
| good_push (e : string) (stack : list string) :
    real e = true -> good isRooted stack -> good isRooted (e :: stack).

(** ** Sample configurations *)

Definition confOf (options : list (string * dyn)) : gmap string dyn :=
  list_to_map options.

(** A matcher for one server name and one protocol that dials with TLS. *)
Definition matcherTLS : Protocol :=
  {| Kind := "tlsmatcher"; AsDefault := false;
     Conf := confOf [ ("target", DStr "localhost:8443");
                      ("dialTLS", DBool true);
                      ("serverNames", DList [ DStr "a.example" ]);
                      ("negotiatedProtocols", DList [ DStr "h2" ]) ] |}.

(** A matcher whose [dialTLS] and [serverNames] options have the wrong
    shape. *)
Definition matcherWrongShape : Protocol :=
  {| Kind := "tlsmatcher"; AsDefault := false;
     Conf := confOf [ ("target", DStr "localhost:8080");
                      ("dialTLS", DStr "true");
                      ("serverNames", DStr "a.example") ] |}.

Definition stateA : tls.ConnectionState :=
  {| tls.ServerName := "a.example"; tls.NegotiatedProtocol := "h2";
     tls.NegotiatedProtocolIsMutual := true |}.

Definition stateB : tls.ConnectionState :=
  {| tls.ServerName := "b.example"; tls.NegotiatedProtocol := "h2";
     tls.NegotiatedProtocolIsMutual := true |}.

(** A connection that was terminated as TLS. *)
Definition connTLS : Conn := {| connId := 1; hints := [ HintTLS stateA ] |}.

(** A connection whose most recent layer is not TLS. *)
Definition connOther : Conn :=
  {| connId := 2; hints := [ HintTLS stateA; HintOther "proxy" ] |}.

Definition sshProxy : Protocol :=
  {| Kind := "proxy"; AsDefault := false;
     Conf := confOf [ ("magic", DList [ DStr "SS"; DStr "SSH" ]);
                      ("target", DStr "localhost:22") ] |}.

Definition siteHandler : httpHandler :=
  {| path := "/srv/http"; defaultFile := "index.html";
     notFoundMsg := default404 |}.

Definition httpBoth : Protocol :=
  {| Kind := "http"; AsDefault := false;
     Conf := confOf [ ("path", DStr "/srv/http");
                      ("notFoundMsg", DStr "not here");
                      ("notFoundFile", DStr "404.html") ] |}.

Definition httpNeither : Protocol :=
  {| Kind := "http"; AsDefault := false;
     Conf := confOf [ ("path", DStr "/srv/http") ] |}.

Definition httpFile : Protocol :=
  {| Kind := "http"; AsDefault := false;
     Conf := confOf [ ("path", DStr "/srv/http");
                      ("notFoundFile", DStr "404.html") ] |}.

Definition echoDefault : Protocol :=
  {| Kind := "echo"; AsDefault := true; Conf := confOf [] |}.

Definition discardDefault : Protocol :=
  {| Kind := "discard"; AsDefault := true; Conf := confOf [] |}.

Definition twoDefaults : list Protocol :=
  [ echoDefault; sshProxy; discardDefault; httpNeither ].

(** A protocol of a kind the factory does not know. *)
Definition gopher : Protocol :=
  {| Kind := "gopher"; AsDefault := false; Conf := confOf [] |}.

(** A process started on a configuration file that decodes to [conf],
    on a system where every file can be read and the address is free. *)
Definition envOf (conf : Config) : Env :=
  {| Args := [ "serve2d"; "conf.json" ];
     ReadFile := fun name => Success ("contents of " +:+ name);
     Unmarshal := fun _ => Success conf;
     OpenFile := fun _ => Success tt;
     Listen := fun _ => Success tt;
     LoadKeyPair := fun _ _ => Success tt |}.

Definition configOf (protocols : list Protocol) : Config :=
  {| Address := ":80"; LogStdout := true; LogFile := ""; MaxRead := 0;
     Protocols := protocols |}.

Definition sampleEnv : Env := envOf (configOf [ matcherTLS ]).

Definition gopherEnv : Env := envOf (configOf [ sshProxy; gopher ]).

(** The sample system without a single readable file. *)
Definition noFilesEnv : Env :=
  {| Args := Args sampleEnv;
     ReadFile := fun _ => Failure "no such file or directory";
     Unmarshal := Unmarshal sampleEnv;
     OpenFile := OpenFile sampleEnv;
     Listen := Listen sampleEnv;
     LoadKeyPair := LoadKeyPair sampleEnv |}.

(** ** Vocabulary of the further properties *)

(** Logging is asked for: to the standard output or to a file. *)
Definition logging (conf : Config) : bool :=
  LogStdout conf || negb (String.eqb (LogFile conf) "").

(** The read size the server is given. *)
Definition readSize (conf : Config) : Z :=
  if (MaxRead conf =? 0)%Z then serve2.BytesToCheck serve2.New
  else MaxRead conf.

(** The server as [main] has set it up before the first handler. *)
Definition startedServer (conf : Config) : serve2.Server :=
  {| serve2.BytesToCheck := readSize conf;
     serve2.Logger := logging conf;
     serve2.DefaultProtocol := None;
     serve2.handlers := [] |}.

(** The calls made when [main] gets past [net.Listen]. *)
Definition startedTrace (env : Env) (conf : Config) : list Event :=
  [ EvReadFile (nth 1 (Args env) "") ]
  ++ (if String.eqb (LogFile conf) "" then []
      else [ EvOpenFile (LogFile conf) ])
  ++ (if logging conf
      then [ EvLog "Maximum buffer size: %d" [ LInt (readSize conf) ] ]
      else [])
  ++ [ EvListen (Address conf) true ]
  ++ (if logging conf
      then [ EvLog "Listening on: %s" [ LStr (Address conf) ] ]
      else []).

(** The world in which the handlers are built. *)
Definition started (env : Env) (conf : Config) : World :=
  {| server := startedServer conf;
     confReady := true;
     logger := logging conf;
     logOutput := if String.eqb (LogFile conf) "" then None
                  else Some (LogFile conf);
     trace := startedTrace env conf |}.

(** What the system must grant for [main] to get past [net.Listen] with
    the configuration [conf]. *)
Definition starts (env : Env) (conf : Config) : Prop :=
  (1 < length (Args env))%nat /\
  (exists bytes,
     ReadFile env (nth 1 (Args env) "") = Success bytes /\
     Unmarshal env bytes = Success conf) /\
  LogStdout conf && negb (String.eqb (LogFile conf) "") = false /\
  (LogFile conf <> "" -> OpenFile env (LogFile conf) = Success tt) /\
  Listen env (Address conf) = Success tt.

Definition notLog (e : Event) : bool :=
  match e with
  | EvLog _ _ => false
  | _ => true
  end.

Definition notOpened (e : Event) : bool :=
  match e with
  | EvListen _ true => false
  | _ => true
  end.

(** A step that leaves the logging setup alone and that, when logging is
    off and the configuration has been read, logs nothing. *)
Definition tidy {A : Type} (m : M A) : Prop :=
  forall w,
    confReady (snd (m w)) = confReady w /\
    logger (snd (m w)) = logger w /\
    logOutput (snd (m w)) = logOutput w /\
    exists extra,
      trace (snd (m w)) = trace w ++ extra /\
      (logger w = false -> confReady w = true ->
       forallb notLog extra = true).

(** The handlers of a list of protocols, when the factory builds them
    all. *)
Fixpoint allBuilt (env : Env) (ps : list Protocol)
  : option (list proto.ProtocolHandler) :=
  match ps with
  | [] => Some []
  | v :: ps' =>
      match handlerOf env v with
      | Ok h => option_map (cons h) (allBuilt env ps')
      | Panic _ => None
      end
  end.

(** The server after the loop bodies of a list of protocols. *)
Fixpoint registerAll (s : serve2.Server) (ps : list Protocol)
    (hs : list proto.ProtocolHandler) : serve2.Server :=
  match ps, hs with
  | v :: ps', h :: hs' => registerAll (registerIn s v h) ps' hs'
  | _, _ => s
  end.

(** The sample system with a configuration that asks for no logging. *)
Definition quietConfig (protocols : list Protocol) : Config :=
  {| Address := ":8080"; LogStdout := false; LogFile := ""; MaxRead := 16;
     Protocols := protocols |}.

(** A configuration that asks for both logging destinations. *)
Definition bothLogsConfig : Config :=
  {| Address := ":80"; LogStdout := true; LogFile := "serve2d.log";
     MaxRead := 0; Protocols := [ echoDefault ] |}.

Definition isSuccess {A : Type} (r : result A) : bool :=
  match r with
  | Success _ => true
  | Failure _ => false
  end.

(** The options of a proxy the factory accepts: a magic that is a string
    or a list of strings, and a target that is a string. *)
Definition validProxy (conf : gmap string dyn) : bool :=
  (isSome (asString (conf !! "magic"))
   || match asSlice (conf !! "magic") with
      | Some l => isSome (strings l)
      | None => false
      end)
  && isSome (asString (conf !! "target")).

(** The options of a TLS handler that are acceptable before the key pair
    is loaded. *)
Definition validTLSOptions (conf : gmap string dyn) : bool :=
  isSome (asString (conf !! "cert"))
  && isSome (asString (conf !! "key"))
  && match asSlice (conf !! "protos") with
     | Some l => isSome (strings l)
     | None => false
     end.

Definition validTLS (env : Env) (conf : gmap string dyn) : bool :=
  validTLSOptions conf
  && match asString (conf !! "cert"), asString (conf !! "key") with
     | Some cert, Some key => isSuccess (LoadKeyPair env cert key)
     | _, _ => false
     end.

Definition validTLSMatcher (conf : gmap string dyn) : bool :=
  isSome (asString (conf !! "target"))
  && listOfStringsOrNoList (conf !! "serverNames")
  && listOfStringsOrNoList (conf !! "negotiatedProtocols").

(** The options of a file handler the factory accepts: not both
    not-found options; each option that is present is a string; the
    not-found file can be read; the path is present. *)
Definition validHTTP (env : Env) (conf : gmap string dyn) : bool :=
  negb (isSome (conf !! "notFoundFile") && isSome (conf !! "notFoundMsg"))
  && (negb (isSome (conf !! "notFoundMsg"))
      || isSome (asString (conf !! "notFoundMsg")))
  && (negb (isSome (conf !! "notFoundFile"))
      || match asString (conf !! "notFoundFile") with
         | Some f => isSuccess (ReadFile env f)
         | None => false
         end)
  && (negb (isSome (conf !! "defaultFile"))
      || isSome (asString (conf !! "defaultFile")))
  && isSome (asString (conf !! "path")).

Definition tlsProtocol : Protocol :=
  {| Kind := "tls"; AsDefault := false;
     Conf := confOf [ ("cert", DStr "cert.pem"); ("key", DStr "key.pem");
                      ("protos", DList [ DStr "h2"; DStr "http/1.1" ]) ] |}.

Definition plainProxy : Protocol :=
  {| Kind := "proxy"; AsDefault := false;
     Conf := confOf [ ("magic", DStr "SSH");
                      ("target", DStr "localhost:22") ] |}.

Definition httpMessage : Protocol :=
  {| Kind := "http"; AsDefault := false;
     Conf := confOf [ ("path", DStr "/srv/http");
                      ("notFoundMsg", DStr "not here");
                      ("defaultFile", DStr "home.html") ] |}.

(** ** The factory of the two earlier variants of the file *)

(** The assertion [x.([]string)].  A JSON array is stored in an
    [interface{}] as [[]interface{}]: no value of [dyn] has the dynamic
    type [[]string], and the assertion fails on every one of them. *)
Definition asStringSlice (x : option dyn) : option (list string) := None.

(** The [switch v.Kind] of the variant with [LogStdout]: a proxy has one
    magic, and there is no matcher and no file handler. *)
Module variant1.

Definition buildProxy (conf : gmap string dyn) : M proto.ProtocolHandler :=
  magic ← need (asString (conf !! "magic"))
               "Proxy declaration is missing valid magic";
  target ← need (asString (conf !! "target"))
                "Proxy declaration is missing valid target";
  mret (proto.NewProxy (bytesOf magic) "tcp" target).

Definition buildTLS (env : Env) (conf : gmap string dyn)
  : M proto.ProtocolHandler :=
  cert ← need (asString (conf !! "cert"))
              "TLS decleration is missing valid certificate";
  key ← need (asString (conf !! "key"))
             "TLS declaration is missing valid key";
  y ← need (asSlice (conf !! "protos")) "TLS protos declaration invalid";
  protos ← forEach (stringOr "TLS protos declaration invalid") y;
  emit (EvLoadKeyPair cert key);;
  match LoadKeyPair env cert key with
  | Failure err => logit "TLS configuration failed" [];; panic err
  | Success _ => mret (proto.NewTLS protos cert key)
  end.

Definition buildHandler (env : Env) (v : Protocol)
  : M proto.ProtocolHandler :=
  let kind := Kind v in
  if String.eqb kind "proxy" then buildProxy (Conf v)
  else if String.eqb kind "tls" then buildTLS env (Conf v)
  else if String.eqb kind "echo" then mret proto.NewEcho
  else if String.eqb kind "discard" then mret proto.NewDiscard
  else panic ("Unknown kind: " +:+ kind).

End variant1.

(** The [switch v.Kind] of the variant with [Logging]: [protos] is
    asserted to be a [[]string]. *)
Module variant0.

Definition buildTLS (env : Env) (conf : gmap string dyn)
  : M proto.ProtocolHandler :=
  cert ← need (asString (conf !! "cert"))
              "TLS decleration is missing valid certificate";
  key ← need (asString (conf !! "key"))
             "TLS declaration is missing valid key";
  protos ← need (asStringSlice (conf !! "protos"))
                "TLS declaration is missing valid protocols";
  emit (EvLoadKeyPair cert key);;
  match LoadKeyPair env cert key with
  | Failure err => logit "TLS configuration failed" [];; panic err
  | Success _ => mret (proto.NewTLS protos cert key)
  end.

Definition buildHandler (env : Env) (v : Protocol)
  : M proto.ProtocolHandler :=
  let kind := Kind v in
  if String.eqb kind "proxy" then variant1.buildProxy (Conf v)
  else if String.eqb kind "tls" then buildTLS env (Conf v)
  else if String.eqb kind "echo" then mret proto.NewEcho
  else if String.eqb kind "discard" then mret proto.NewDiscard
  else panic ("Unknown kind: " +:+ kind).

End variant0.

(** A configuration that logs to a file, on a system that refuses to
    open it. *)
Definition fileLogConfig : Config :=
  {| Address := ":80"; LogStdout := false;
     LogFile := "/var/log/serve2d.log"; MaxRead := 0; Protocols := [] |}.

Definition logDeniedEnv : Env :=
  {| Args := [ "serve2d"; "conf.json" ];
     ReadFile := fun _ => Success "{}";
     Unmarshal := fun _ => Success fileLogConfig;
     OpenFile := fun _ => Failure "permission denied";
     Listen := fun _ => Success tt;
     LoadKeyPair := fun _ _ => Success tt |}.

(** The sample system with the address taken. *)
Definition busyEnv : Env :=
  {| Args := [ "serve2d"; "conf.json" ];
     ReadFile := fun _ => Success "{}";
     Unmarshal := fun _ => Success (configOf [ tlsProtocol ]);
     OpenFile := fun _ => Success tt;
     Listen := fun _ => Failure "address already in use";
     LoadKeyPair := fun _ _ => Success tt |}.

(** * Properties *)

(** ** Reasoning about the steps of [main] *)

Ltac run :=
  repeat (cbn [mbind mret M_bind M_ret need when panic stringOr isSome
               asString asBool asSlice negb andb orb default fst snd] in *;
          unfold mbind, mret, M_bind, M_ret in *).

Lemma bind_Ok {A B : Type} (m : M A) (f : A -> M B) (w w' : World) (a : A) :
  m w = (Ok a, w') -> (m ≫= f) w = f a w'.
Proof. intros E. unfold mbind, M_bind. now rewrite E. Qed.

Lemma bind_Panic {A B : Type} (m : M A) (f : A -> M B) (w w' : World)
    (v : string) :
  m w = (Panic v, w') -> (m ≫= f) w = (Panic v, w').
Proof. intros E. unfold mbind, M_bind. now rewrite E. Qed.

Lemma bind_inv_Ok {A B : Type} (m : M A) (f : A -> M B) (w w' : World)
    (b : B) :
  (m ≫= f) w = (Ok b, w') ->
  exists a w1, m w = (Ok a, w1) /\ f a w1 = (Ok b, w').
Proof.
  unfold mbind, M_bind. destruct (m w) as [[a|v] w1]; intros E.
  - now exists a, w1.
  - discriminate.
Qed.

Lemma forEach_stringOr (message : string) (xs : list dyn) (w : World) :
  forEach (stringOr message) xs w =
  (match strings xs with
   | Some names => Ok names
   | None => Panic message
   end, w).
Proof.
  induction xs as [|x xs IH]; [reflexivity|].
  destruct x; try reflexivity.
  cbn [forEach strings stringOr]. run. rewrite IH.
  now destruct (strings xs).
Qed.

Lemma strings_Some (xs : list dyn) (names : list string) :
  strings xs = Some names <-> xs = map DStr names.
Proof.
  revert names. induction xs as [|x xs IH]; intros names; cbn.
  - split; [intros [= <-]; reflexivity | now destruct names].
  - destruct x; try (split; [discriminate | now destruct names]).
    destruct (strings xs) as [l|]; cbn.
    + split.
      * intros [= <-]. cbn. f_equal. now apply IH.
      * destruct names as [|n names]; [discriminate|]. cbn.
        intros [= -> E]. apply IH in E. now injection E as ->.
    + split; [discriminate|].
      destruct names as [|n names]; [discriminate|]. cbn.
      intros [= -> E]. apply IH in E. discriminate.
Qed.

(** What a successfully built matcher looks like. *)
Lemma buildTLSMatcher_Ok (conf : gmap string dyn) (w w' : World)
    (h : proto.ProtocolHandler) :
  buildTLSMatcher conf w = (Ok h, w') ->
  exists target t,
    asString (conf !! "target") = Some target /\
    h = proto.OfTLSMatcher t /\
    proto.cb t =
      (if negb (isSome (asBool (conf !! "dialTLS")))
          || negb (default false (asBool (conf !! "dialTLS")))
       then cbPlain target else cbTLS target) /\
    proto.Checks t =
      Z.lor (Z.lor (if isSome (asSlice (conf !! "serverNames"))
                    then proto.TLSCheckServerName else 0)
                   (if isSome (asSlice (conf !! "negotiatedProtocols"))
                    then proto.TLSCheckNegotiatedProtocol else 0))
            (if isSome (asBool (conf !! "negotiatedProtocolIsMutual"))
             then proto.TLSCheckNegotiatedProtocolIsMutual else 0) /\
    (forall sn, asSlice (conf !! "serverNames") = Some sn ->
                sn = map DStr (proto.ServerNames t)) /\
    (forall np, asSlice (conf !! "negotiatedProtocols") = Some np ->
                np = map DStr (proto.NegotiatedProtocols t)) /\
    (forall b, asBool (conf !! "negotiatedProtocolIsMutual") = Some b ->
               proto.NegotiatedProtocolIsMutual t = b).
Proof.
  unfold buildTLSMatcher.
  destruct (asString (conf !! "target")) as [target|]; run; [|discriminate].
  destruct (asSlice (conf !! "serverNames")) as [sn|]; run.
  - rewrite forEach_stringOr.
    destruct (strings sn) as [names|] eqn:Esn; [|discriminate].
    apply strings_Some in Esn.
    destruct (asSlice (conf !! "negotiatedProtocols")) as [np|]; run.
    + rewrite forEach_stringOr.
      destruct (strings np) as [protos|] eqn:Enp; [|discriminate].
      apply strings_Some in Enp.
      destruct (asBool (conf !! "negotiatedProtocolIsMutual")) as [npm|];
        intros [= <- <-]; eexists _, _;
        (split; [reflexivity|]); (split; [reflexivity|]); cbn;
        repeat split; congruence.
    + destruct (asBool (conf !! "negotiatedProtocolIsMutual")) as [npm|];
        intros [= <- <-]; eexists _, _;
        (split; [reflexivity|]); (split; [reflexivity|]); cbn;
        repeat split; congruence.
  - destruct (asSlice (conf !! "negotiatedProtocols")) as [np|]; run.
    + rewrite forEach_stringOr.
      destruct (strings np) as [protos|] eqn:Enp; [|discriminate].
      apply strings_Some in Enp.
      destruct (asBool (conf !! "negotiatedProtocolIsMutual")) as [npm|];
        intros [= <- <-]; eexists _, _;
        (split; [reflexivity|]); (split; [reflexivity|]); cbn;
        repeat split; congruence.
    + destruct (asBool (conf !! "negotiatedProtocolIsMutual")) as [npm|];
        intros [= <- <-]; eexists _, _;
        (split; [reflexivity|]); (split; [reflexivity|]); cbn;
        repeat split; congruence.
Qed.

Lemma buildTLSMatcher_succeeds (conf : gmap string dyn) (w : World)
    (target : string) :
  asString (conf !! "target") = Some target ->
  listOfStringsOrNoList (conf !! "serverNames") = true ->
  listOfStringsOrNoList (conf !! "negotiatedProtocols") = true ->
  exists t, buildTLSMatcher conf w = (Ok (proto.OfTLSMatcher t), w).
Proof.
  unfold buildTLSMatcher, listOfStringsOrNoList. intros -> Hsn Hnp. run.
  destruct (asSlice (conf !! "serverNames")) as [sn|]; run.
  - destruct (strings sn) eqn:Esn; [|discriminate].
    rewrite forEach_stringOr, Esn.
    destruct (asSlice (conf !! "negotiatedProtocols")) as [np|]; run.
    + destruct (strings np) eqn:Enp; [|discriminate].
      rewrite forEach_stringOr, Enp.
      destruct (asBool (conf !! "negotiatedProtocolIsMutual"));
        eexists; reflexivity.
    + destruct (asBool (conf !! "negotiatedProtocolIsMutual"));
        eexists; reflexivity.
  - destruct (asSlice (conf !! "negotiatedProtocols")) as [np|]; run.
    + destruct (strings np) eqn:Enp; [|discriminate].
      rewrite forEach_stringOr, Enp.
      destruct (asBool (conf !! "negotiatedProtocolIsMutual"));
        eexists; reflexivity.
    + destruct (asBool (conf !! "negotiatedProtocolIsMutual"));
        eexists; reflexivity.
Qed.

Lemma buildHandler_tlsmatcher (env : Env) (v : Protocol) :
  Kind v = "tlsmatcher" -> buildHandler env v = buildTLSMatcher (Conf v).
Proof. unfold buildHandler. now intros ->. Qed.

Lemma lookup_last_snoc {A : Type} (init : list A) (x : A) :
  (init ++ [ x ]) !! (length (init ++ [ x ]) - 1)%nat = Some x.
Proof.
  rewrite length_app. cbn [length].
  replace (length init + 1 - 1)%nat with (length init) by lia.
  rewrite lookup_app_r by lia.
  now replace (length init - length init)%nat with 0%nat by lia.
Qed.

Lemma cbTLS_last (target : string) (c : Conn) (init : list hint) (x : hint) :
  hints c = init ++ [ x ] ->
  cbTLS target c =
  utils.DialAndProxyTLS c "tcp" target
    {| tls.cfgServerName :=
         match x with HintTLS cs => tls.ServerName cs | _ => "" end;
       tls.NextProtos :=
         [ match x with HintTLS cs => tls.NegotiatedProtocol cs | _ => "" end ];
       tls.InsecureSkipVerify := true |}.
Proof.
  intros E. unfold cbTLS, utils.GetHints. rewrite E, lookup_last_snoc.
  assert ((0 <? length (init ++ [ x ]))%nat = true) as ->.
  { apply Nat.ltb_lt. rewrite length_app. cbn. lia. }
  now destruct x.
Qed.

Lemma dialTLS_true (conf : gmap string dyn) :
  conf !! "dialTLS" = Some (DBool true) <->
  negb (isSome (asBool (conf !! "dialTLS")))
  || negb (default false (asBool (conf !! "dialTLS"))) = false.
Proof.
  destruct (conf !! "dialTLS") as [[| [|] | | | |]|]; cbn;
    split; congruence.
Qed.

(** C4: a matcher configured with [dialTLS] true dials the target with
    TLS, sending the server name and, as only application protocol, the
    protocol negotiated on the inbound handshake, and does not verify the
    certificate; any other matcher dials the target in plaintext with the
    proxying helper. *)
Theorem tlsmatcher_dial_strategy (env : Env) (v : Protocol) (w w' : World)
    (h : proto.ProtocolHandler) :
  Kind v = "tlsmatcher" ->
  buildHandler env v w = (Ok h, w') ->
  exists target t,
    asString (Conf v !! "target") = Some target /\
    h = proto.OfTLSMatcher t /\
    (Conf v !! "dialTLS" = Some (DBool true) ->
     forall c init cs,
       hints c = init ++ [ HintTLS cs ] ->
       proto.cb t c =
       utils.DialAndProxyTLS c "tcp" target
         {| tls.cfgServerName := tls.ServerName cs;
            tls.NextProtos := [ tls.NegotiatedProtocol cs ];
            tls.InsecureSkipVerify := true |}) /\
    (Conf v !! "dialTLS" <> Some (DBool true) ->
     forall c, proto.cb t c = utils.DialAndProxy c "tcp" target).
Proof.
  intros K B. rewrite (buildHandler_tlsmatcher env v K) in B.
  apply buildTLSMatcher_Ok in B as (target & t & Ht & -> & Hcb & _).
  exists target, t. repeat split; [assumption| |].
  - intros D c init cs Hc. rewrite Hcb.
    apply dialTLS_true in D. rewrite D.
    now rewrite (cbTLS_last target c init (HintTLS cs) Hc).
  - intros D c. rewrite Hcb.
    destruct (negb (isSome (asBool (Conf v !! "dialTLS")))
              || negb (default false (asBool (Conf v !! "dialTLS")))) eqn:E.
    + reflexivity.
    + apply dialTLS_true in E. contradiction.
Qed.

(** C10: with [dialTLS] true the callback dials with TLS also when the
    hint chain is empty or ends with something that is not a TLS
    connection; the server name is then empty and the protocol list holds
    the empty string alone. *)
Theorem tlsmatcher_dial_without_tls_hint (env : Env) (v : Protocol)
    (w w' : World) (h : proto.ProtocolHandler) :
  Kind v = "tlsmatcher" ->
  Conf v !! "dialTLS" = Some (DBool true) ->
  buildHandler env v w = (Ok h, w') ->
  exists target t,
    asString (Conf v !! "target") = Some target /\
    h = proto.OfTLSMatcher t /\
    forall c,
      (hints c = [] \/ exists init layer, hints c = init ++ [ HintOther layer ]) ->
      proto.cb t c =
      utils.DialAndProxyTLS c "tcp" target
        {| tls.cfgServerName := "";
           tls.NextProtos := [ "" ];
           tls.InsecureSkipVerify := true |}.
Proof.
  intros K D B. rewrite (buildHandler_tlsmatcher env v K) in B.
  apply buildTLSMatcher_Ok in B as (target & t & Ht & -> & Hcb & _).
  exists target, t. repeat split; [assumption|].
  intros c Hc. rewrite Hcb. apply dialTLS_true in D. rewrite D.
  destruct Hc as [E | (init & layer & E)].
  - unfold cbTLS, utils.GetHints. now rewrite E.
  - now rewrite (cbTLS_last target c init (HintOther layer) E).
Qed.

(** C9: a [dialTLS] option that is present but is not a boolean changes
    nothing: the factory gives what it gives without the option and what
    it gives with [dialTLS] false; when the other options are acceptable
    the matcher is built and its callback dials in plaintext. *)
Theorem tlsmatcher_malformed_dialTLS (env : Env) (isDefault : bool)
    (conf : gmap string dyn) (x : dyn) (w : World) :
  conf !! "dialTLS" = Some x ->
  (forall b, x <> DBool b) ->
  let build c :=
    buildHandler env
      {| Kind := "tlsmatcher"; AsDefault := isDefault; Conf := c |} w in
  build conf = build (delete "dialTLS" conf) /\
  build conf = build (<["dialTLS" := DBool false]> conf) /\
  (forall target,
     asString (conf !! "target") = Some target ->
     listOfStringsOrNoList (conf !! "serverNames") = true ->
     listOfStringsOrNoList (conf !! "negotiatedProtocols") = true ->
     exists t,
       build conf = (Ok (proto.OfTLSMatcher t), w) /\
       forall c, proto.cb t c = utils.DialAndProxy c "tcp" target).
Proof.
  intros D NB build. subst build. cbn beta.
  rewrite !buildHandler_tlsmatcher by reflexivity. cbn [Conf].
  assert (asBool (conf !! "dialTLS") = None) as HB.
  { rewrite D. destruct x; try reflexivity. now destruct (NB b). }
  repeat split.
  - unfold buildTLSMatcher.
    rewrite (lookup_delete_ne conf "dialTLS" "target") by discriminate.
    rewrite (lookup_delete_ne conf "dialTLS" "serverNames") by discriminate.
    rewrite (lookup_delete_ne conf "dialTLS" "negotiatedProtocols")
      by discriminate.
    rewrite (lookup_delete_ne conf "dialTLS" "negotiatedProtocolIsMutual")
      by discriminate.
    rewrite lookup_delete_eq, HB. reflexivity.
  - unfold buildTLSMatcher.
    rewrite (lookup_insert_ne conf "dialTLS" "target") by discriminate.
    rewrite (lookup_insert_ne conf "dialTLS" "serverNames") by discriminate.
    rewrite (lookup_insert_ne conf "dialTLS" "negotiatedProtocols")
      by discriminate.
    rewrite (lookup_insert_ne conf "dialTLS" "negotiatedProtocolIsMutual")
      by discriminate.
    rewrite lookup_insert_eq, HB. reflexivity.
  - intros target Ht Hsn Hnp.
    destruct (buildTLSMatcher_succeeds conf w target Ht Hsn Hnp) as [t B].
    exists t. split; [assumption|].
    apply buildTLSMatcher_Ok in B as (target' & t' & Ht' & [= <-] & Hcb & _).
    rewrite Ht in Ht'. injection Ht' as <-.
    intros c. rewrite Hcb, HB. reflexivity.
Qed.

Lemma asSlice_Some (x : option dyn) (l : list dyn) :
  asSlice x = Some l <-> x = Some (DList l).
Proof. destruct x as [[]|]; cbn; split; congruence. Qed.

Lemma asBool_Some (x : option dyn) (b : bool) :
  asBool x = Some b <-> x = Some (DBool b).
Proof. destruct x as [[]|]; cbn; split; congruence. Qed.

Lemma existsb_eqb_DStr (x : string) (names : list string) :
  existsb (String.eqb x) names = true <-> In (DStr x) (map DStr names).
Proof.
  rewrite existsb_exists, in_map_iff. split.
  - intros (y & Hy & E). apply String.eqb_eq in E as ->. now exists y.
  - intros (y & [= ->] & Hy). exists x. split; [assumption|].
    apply String.eqb_refl.
Qed.

(** The enabled checks and the verdict of a built matcher, in terms of
    the type assertions of the factory. *)
Lemma matcher_checks (conf : gmap string dyn) (w w' : World)
    (h : proto.ProtocolHandler) :
  buildTLSMatcher conf w = (Ok h, w') ->
  exists t,
    h = proto.OfTLSMatcher t /\
    matching.enabled t proto.TLSCheckServerName
      = isSome (asSlice (conf !! "serverNames")) /\
    matching.enabled t proto.TLSCheckNegotiatedProtocol
      = isSome (asSlice (conf !! "negotiatedProtocols")) /\
    matching.enabled t proto.TLSCheckNegotiatedProtocolIsMutual
      = isSome (asBool (conf !! "negotiatedProtocolIsMutual")) /\
    (forall sn, asSlice (conf !! "serverNames") = Some sn ->
                sn = map DStr (proto.ServerNames t)) /\
    (forall np, asSlice (conf !! "negotiatedProtocols") = Some np ->
                np = map DStr (proto.NegotiatedProtocols t)) /\
    (forall b, asBool (conf !! "negotiatedProtocolIsMutual") = Some b ->
               proto.NegotiatedProtocolIsMutual t = b).
Proof.
  intros B.
  apply buildTLSMatcher_Ok in B
    as (target & t & _ & -> & _ & Hck & Hsn & Hnp & Hm).
  exists t. split; [reflexivity|].
  unfold matching.enabled. rewrite Hck.
  repeat split; try assumption;
    destruct (asSlice (conf !! "serverNames"));
    destruct (asSlice (conf !! "negotiatedProtocols"));
    destruct (asBool (conf !! "negotiatedProtocolIsMutual"));
    reflexivity.
Qed.

(** C3, as the factory has it: a check is enabled exactly when its option
    is given with the expected shape (a list for [serverNames] and
    [negotiatedProtocols], a boolean for [negotiatedProtocolIsMutual]); a
    TLS-terminated connection matches exactly when every enabled check
    passes, and a matcher without enabled checks matches all of them. *)
Theorem tlsmatcher_enabled_checks (env : Env) (v : Protocol) (w w' : World)
    (h : proto.ProtocolHandler) :
  Kind v = "tlsmatcher" ->
  buildHandler env v w = (Ok h, w') ->
  exists t,
    h = proto.OfTLSMatcher t /\
    (matching.enabled t proto.TLSCheckServerName = true <->
     exists sn, Conf v !! "serverNames" = Some (DList sn)) /\
    (matching.enabled t proto.TLSCheckNegotiatedProtocol = true <->
     exists np, Conf v !! "negotiatedProtocols" = Some (DList np)) /\
    (matching.enabled t proto.TLSCheckNegotiatedProtocolIsMutual = true <->
     exists b, Conf v !! "negotiatedProtocolIsMutual" = Some (DBool b)) /\
    (forall cs,
       matching.matches t cs = true <->
       (forall sn, Conf v !! "serverNames" = Some (DList sn) ->
                   In (DStr (tls.ServerName cs)) sn) /\
       (forall np, Conf v !! "negotiatedProtocols" = Some (DList np) ->
                   In (DStr (tls.NegotiatedProtocol cs)) np) /\
       (forall b, Conf v !! "negotiatedProtocolIsMutual" = Some (DBool b) ->
                  tls.NegotiatedProtocolIsMutual cs = b)) /\
    (matching.enabled t proto.TLSCheckServerName = false ->
     matching.enabled t proto.TLSCheckNegotiatedProtocol = false ->
     matching.enabled t proto.TLSCheckNegotiatedProtocolIsMutual = false ->
     forall cs, matching.matches t cs = true).
Proof.
  intros K B. rewrite (buildHandler_tlsmatcher env v K) in B.
  apply matcher_checks in B as (t & -> & E1 & E2 & E3 & Hsn & Hnp & Hm).
  exists t. split; [reflexivity|].
  assert (forall (A : Type) (o : option A),
            isSome o = true <-> exists a, o = Some a) as isSome_ex.
  { intros A [a|]; cbn; split; eauto; [discriminate | now intros [a [=]]]. }
  split; [|split; [|split; [|split]]].
  - rewrite E1, isSome_ex. now setoid_rewrite asSlice_Some.
  - rewrite E2, isSome_ex. now setoid_rewrite asSlice_Some.
  - rewrite E3, isSome_ex. now setoid_rewrite asBool_Some.
  - intros cs. unfold matching.matches. rewrite E1, E2, E3.
    rewrite !andb_true_iff.
    setoid_rewrite <- asSlice_Some. setoid_rewrite <- asBool_Some.
    destruct (asSlice (Conf v !! "serverNames")) as [sn|];
      destruct (asSlice (Conf v !! "negotiatedProtocols")) as [np|];
      destruct (asBool (Conf v !! "negotiatedProtocolIsMutual")) as [npm|];
      cbn [isSome];
      try rewrite (Hsn _ eq_refl); try rewrite (Hnp _ eq_refl);
      try rewrite (Hm _ eq_refl);
      rewrite ?existsb_eqb_DStr, ?Bool.eqb_true_iff;
      (split; [intros [[H1 H2] H3]; repeat split; intros ? [=]; subst; auto
              |intros (H1 & H2 & H3); repeat split; auto]).
  - intros D1 D2 D3 cs. unfold matching.matches. now rewrite D1, D2, D3.
Qed.

Lemma tlsmatcher_dial_strategy_witness :
  exists t,
    buildHandler sampleEnv matcherTLS initial
      = (Ok (proto.OfTLSMatcher t), initial) /\
    proto.cb t connTLS =
    utils.DialAndProxyTLS connTLS "tcp" "localhost:8443"
      {| tls.cfgServerName := "a.example";
         tls.NextProtos := [ "h2" ];
         tls.InsecureSkipVerify := true |}.
Proof.
  destruct (tlsmatcher_dial_strategy sampleEnv matcherTLS initial initial _
              eq_refl eq_refl) as (target & t & Ht & Hh & Htls & _).
  exists t. split.
  - now rewrite <- Hh.
  - vm_compute in Ht. injection Ht as <-.
    exact (Htls eq_refl connTLS [] stateA eq_refl).
Defined.

Lemma tlsmatcher_dial_without_tls_hint_witness :
  exists t,
    buildHandler sampleEnv matcherTLS initial
      = (Ok (proto.OfTLSMatcher t), initial) /\
    proto.cb t connOther =
    utils.DialAndProxyTLS connOther "tcp" "localhost:8443"
      {| tls.cfgServerName := "";
         tls.NextProtos := [ "" ];
         tls.InsecureSkipVerify := true |}.
Proof.
  destruct (tlsmatcher_dial_without_tls_hint sampleEnv matcherTLS initial
              initial _ eq_refl eq_refl eq_refl)
    as (target & t & Ht & Hh & Hcb).
  exists t. split.
  - now rewrite <- Hh.
  - vm_compute in Ht. injection Ht as <-.
    apply Hcb. right. now exists [ HintTLS stateA ], "proxy".
Defined.

Lemma tlsmatcher_malformed_dialTLS_witness :
  exists t,
    buildHandler sampleEnv matcherWrongShape initial
      = (Ok (proto.OfTLSMatcher t), initial) /\
    buildHandler sampleEnv matcherWrongShape initial
      = buildHandler sampleEnv
          {| Kind := "tlsmatcher"; AsDefault := false;
             Conf := delete "dialTLS" (Conf matcherWrongShape) |} initial /\
    proto.cb t connTLS = utils.DialAndProxy connTLS "tcp" "localhost:8080".
Proof.
  destruct (tlsmatcher_malformed_dialTLS sampleEnv false
              (Conf matcherWrongShape) (DStr "true") initial eq_refl)
    as (Hdel & _ & Hok).
  { discriminate. }
  destruct (Hok "localhost:8080" eq_refl eq_refl eq_refl) as (t & Hb & Hcb).
  exists t. split; [exact Hb|]. split; [exact Hdel|]. apply Hcb.
Defined.

(** C3 fails as stated: [serverNames] is supplied, as a string instead of
    a list; the matcher is built, its server name check is not enabled,
    and it matches a connection for another server name. *)
Lemma serverNames_supplied_not_enabled :
  exists t,
    buildHandler sampleEnv matcherWrongShape initial
      = (Ok (proto.OfTLSMatcher t), initial) /\
    Conf matcherWrongShape !! "serverNames" = Some (DStr "a.example") /\
    matching.enabled t proto.TLSCheckServerName = false /\
    matching.matches t stateB = true.
Proof. eexists. repeat split. Qed.

Lemma tlsmatcher_enabled_checks_witness :
  exists t,
    buildHandler sampleEnv matcherTLS initial
      = (Ok (proto.OfTLSMatcher t), initial) /\
    matching.enabled t proto.TLSCheckServerName = true /\
    matching.enabled t proto.TLSCheckNegotiatedProtocol = true /\
    matching.enabled t proto.TLSCheckNegotiatedProtocolIsMutual = false /\
    matching.matches t stateA = true /\
    matching.matches t stateB = false.
Proof.
  destruct (tlsmatcher_enabled_checks sampleEnv matcherTLS initial initial _
              eq_refl eq_refl) as (t & Hh & E1 & E2 & E3 & Hm & _).
  exists t. split; [now rewrite <- Hh|].
  split; [apply E1; now eexists|].
  split; [apply E2; now eexists|].
  split.
  { destruct (matching.enabled t proto.TLSCheckNegotiatedProtocolIsMutual);
      [|reflexivity].
    destruct E3 as [E3 _]. destruct (E3 eq_refl) as [b Hb]. discriminate. }
  split.
  - apply Hm. repeat split.
    + intros sn [= <-]. now left.
    + intros np [= <-]. now left.
    + intros b [=].
  - destruct (matching.matches t stateB) eqn:E; [|reflexivity].
    apply Hm in E as (Hsn & _).
    destruct (Hsn _ eq_refl) as [[=]|[]].
Defined.

(** ** The static file handler *)



(** Any other method reads exactly the resolved file, and a failed read
    is answered with status 404 and the handler's not-found body. *)
Lemma ServeHTTP_not_found (h : httpHandler) (fs : string -> result string)
    (r : Request) (err : string) :
  Method r <> "OPTIONS" ->
  fs (resolve h (URLPath r)) = Failure err ->
  reads (ServeHTTP h fs r) = [ resolve h (URLPath r) ] /\
  body (resp (ServeHTTP h fs r)) = notFoundMsg h /\
  finalStatus (resp (ServeHTTP h fs r)) = 404%Z.
Proof.
  intros NE E. unfold ServeHTTP.
  apply String.eqb_neq in NE. rewrite NE, E. now cbn.
Qed.

(** A method other than [OPTIONS], [HEAD] included, reads the resolved
    file. *)
Lemma ServeHTTP_reads (h : httpHandler) (fs : string -> result string)
    (r : Request) :
  Method r <> "OPTIONS" ->
  reads (ServeHTTP h fs r) = [ resolve h (URLPath r) ].
Proof.
  intros NE. unfold ServeHTTP. apply String.eqb_neq in NE. rewrite NE.
  now destruct (fs (resolve h (URLPath r))).
Qed.

Lemma buildHandler_http (env : Env) (v : Protocol) :
  Kind v = "http" -> buildHandler env v = buildHTTP env (Conf v).
Proof. unfold buildHandler. now intros ->. Qed.

(** The end of [buildHTTP], once the not-found body is known. *)
Lemma buildHTTP_tail (conf : gmap string dyn) (notFound : string)
    (w w' : World) (h : proto.ProtocolHandler) :
  (c ← match conf !! "defaultFile" with
       | None => mret "index.html"
       | Some c => need (asString (Some c)) "HTTP defaultFile declaration invalid"
       end;
   p ← need (asString (conf !! "path")) "HTTP path declaration invalid";
   mret (proto.NewHTTP
           {| path := p; defaultFile := c; notFoundMsg := notFound |})) w
  = (Ok h, w') ->
  w' = w /\
  exists p c,
    h = proto.NewHTTP {| path := p; defaultFile := c; notFoundMsg := notFound |}
    /\ asString (conf !! "path") = Some p
    /\ (conf !! "defaultFile" = None -> c = "index.html")
    /\ (forall d, conf !! "defaultFile" = Some d -> d = DStr c).
Proof.
  destruct (conf !! "defaultFile") as [d|]; run.
  - destruct d; run; try discriminate.
    destruct (asString (conf !! "path")) as [p|]; run; [|discriminate].
    intros [= <- <-]. split; [reflexivity|]. exists p, s.
    repeat split; congruence.
  - destruct (asString (conf !! "path")) as [p|]; run; [|discriminate].
    intros [= <- <-]. split; [reflexivity|]. exists p, "index.html".
    repeat split; congruence.
Qed.

(** The root and the default file of a handler the factory has built:
    the default file is [index.html] unless the option names another. *)
Lemma buildHTTP_Ok (env : Env) (conf : gmap string dyn) (w w' : World)
    (h : proto.ProtocolHandler) :
  buildHTTP env conf w = (Ok h, w') ->
  exists hh,
    h = proto.NewHTTP hh /\
    conf !! "path" = Some (DStr (path hh)) /\
    (conf !! "defaultFile" = None -> defaultFile hh = "index.html") /\
    (forall d, conf !! "defaultFile" = Some d -> d = DStr (defaultFile hh)).
Proof.
  unfold buildHTTP. intros B.
  apply bind_inv_Ok in B as ([] & w1 & _ & B).
  apply bind_inv_Ok in B as (notFound & w2 & _ & B).
  apply buildHTTP_tail in B as (_ & p & c & -> & Hp & Hnone & Hsome).
  eexists. split; [reflexivity|]. cbn [path defaultFile].
  split; [|split; assumption].
  destruct (conf !! "path") as [[]|]; try discriminate.
  now injection Hp as ->.
Qed.

(** C7: the factory refuses a handler with both [notFoundMsg] and
    [notFoundFile]; with neither, the not-found body is the built-in one;
    with [notFoundFile], the file is read once, when the handler is built:
    a failed read is a panic of the factory, and the requests served later
    get what was read then, whatever the file system says by that time. *)
Theorem http_not_found_options (env : Env) (v : Protocol) (w : World) :
  Kind v = "http" ->
  (is_Some (Conf v !! "notFoundMsg") ->
   is_Some (Conf v !! "notFoundFile") ->
   buildHandler env v w =
   (Panic "HTTP notFoundMsg and notFoundFile declared simultaneously", w))
  /\
  (Conf v !! "notFoundMsg" = None ->
   Conf v !! "notFoundFile" = None ->
   forall h w', buildHandler env v w = (Ok h, w') ->
     w' = w /\
     exists hh,
       h = proto.NewHTTP hh /\ notFoundMsg hh = default404 /\
       forall fs r err,
         Method r <> "OPTIONS" ->
         fs (resolve hh (URLPath r)) = Failure err ->
         body (resp (ServeHTTP hh fs r)) = default404)
  /\
  (Conf v !! "notFoundMsg" = None ->
   forall f, Conf v !! "notFoundFile" = Some (DStr f) ->
     (forall err, ReadFile env f = Failure err ->
        exists w', buildHandler env v w = (Panic err, w')) /\
     (forall h w', buildHandler env v w = (Ok h, w') ->
        exists hh content,
          h = proto.NewHTTP hh /\
          ReadFile env f = Success content /\
          notFoundMsg hh = content /\
          trace w' = trace w ++ [ EvReadFile f ] /\
          forall fs r err,
            Method r <> "OPTIONS" ->
            fs (resolve hh (URLPath r)) = Failure err ->
            reads (ServeHTTP hh fs r) = [ resolve hh (URLPath r) ] /\
            body (resp (ServeHTTP hh fs r)) = content /\
            finalStatus (resp (ServeHTTP hh fs r)) = 404%Z)).
Proof.
  intros K. rewrite (buildHandler_http env v K). unfold buildHTTP.
  split; [|split].
  - intros [m ->] [f ->]. reflexivity.
  - intros -> -> h w' B. run.
    apply buildHTTP_tail in B as (-> & p & c & -> & _).
    split; [reflexivity|]. eexists.
    split; [reflexivity|]. split; [reflexivity|].
    intros fs r err NE E.
    exact (proj1 (proj2 (ServeHTTP_not_found _ fs r err NE E))).
  - intros -> f ->. run. unfold readFile. run. cbn [emit]. split.
    + intros err ->. unfold logit. cbn [logger confReady].
      destruct (logger w || negb (confReady w)); eexists; reflexivity.
    + intros h w'. destruct (ReadFile env f) as [content|err].
      * intros B. apply buildHTTP_tail in B as (-> & p & c & -> & _).
        eexists _, content.
        split; [reflexivity|]. split; [reflexivity|].
        split; [reflexivity|]. split; [reflexivity|].
        intros fs r err NE E.
        exact (ServeHTTP_not_found _ fs r err NE E).
      * unfold logit. cbn [logger confReady].
        destruct (logger w || negb (confReady w)); discriminate.
Qed.

Lemma http_not_found_options_witness :
  buildHandler sampleEnv httpBoth initial =
    (Panic "HTTP notFoundMsg and notFoundFile declared simultaneously",
     initial) /\
  (exists hh,
     buildHandler sampleEnv httpNeither initial = (Ok (proto.NewHTTP hh), initial)
     /\ notFoundMsg hh = default404) /\
  (exists hh w',
     buildHandler sampleEnv httpFile initial = (Ok (proto.NewHTTP hh), w') /\
     trace w' = [ EvReadFile "404.html" ] /\
     body (resp (ServeHTTP hh (ReadFile noFilesEnv)
                   {| Method := "GET"; URLPath := "/missing" |}))
       = "contents of 404.html") /\
  (exists w', buildHandler noFilesEnv httpFile initial
              = (Panic "no such file or directory", w')).
Proof.
  split; [|split; [|split]].
  - apply (http_not_found_options sampleEnv httpBoth initial eq_refl);
      now eexists.
  - destruct (http_not_found_options sampleEnv httpNeither initial eq_refl)
      as (_ & H & _).
    destruct (H eq_refl eq_refl _ _ eq_refl) as (_ & hh & E & Hm & _).
    exists hh. split; [now rewrite <- E | exact Hm].
  - destruct (http_not_found_options sampleEnv httpFile initial eq_refl)
      as (_ & _ & H).
    destruct (H eq_refl "404.html" eq_refl) as (_ & Hok).
    destruct (Hok _ _ eq_refl) as (hh & content & E & Hc & Hm & Ht & Hs).
    injection Hc as <-.
    exists hh. eexists. split; [now rewrite <- E|]. split; [exact Ht|].
    apply (Hs (ReadFile noFilesEnv) {| Method := "GET"; URLPath := "/missing" |}
              "no such file or directory"); [discriminate | reflexivity].
  - destruct (http_not_found_options noFilesEnv httpFile initial eq_refl)
      as (_ & _ & H).
    destruct (H eq_refl "404.html" eq_refl) as (Hfail & _).
    exact (Hfail _ eq_refl).
Defined.

(** ** Magic bytes *)

Lemma hasPrefix_prefix (s p : list Byte.byte) :
  matching.hasPrefix s p = true <-> p `prefix_of` s.
Proof.
  revert s. induction p as [|b p IH]; intros s; cbn.
  - split; [intros _; apply prefix_nil | reflexivity].
  - destruct s as [|c s].
    + split; [discriminate|]. intros [k E]. discriminate.
    + rewrite andb_true_iff, IH. split.
      * intros [E P]. apply Byte.byte_dec_bl in E as ->.
        now apply prefix_cons.
      * intros [k E]. injection E as -> ->. split.
        -- now apply Byte.byte_dec_lb.
        -- now exists k.
Qed.

(** [List.find] gives the first element that passes, and only that. *)
Lemma find_first {A : Type} (f : A -> bool) (l : list A) (m : A) :
  List.find f l = Some m <->
  exists i, l !! i = Some m /\ f m = true /\
            forall j y, (j < i)%nat -> l !! j = Some y -> f y = false.
Proof.
  induction l as [|x l IH]; cbn.
  - split; [discriminate | now intros (i & E & _)].
  - destruct (f x) eqn:Fx.
    + split.
      * intros [= <-]. exists 0%nat. repeat split; [assumption|]. lia.
      * intros ([|i] & E & Fm & Hmin).
        -- cbn in E. congruence.
        -- specialize (Hmin 0%nat x). cbn in Hmin.
           rewrite Hmin in Fx by (lia || reflexivity). discriminate.
    + rewrite IH. split.
      * intros (i & E & Fm & Hmin). exists (S i). repeat split; try assumption.
        intros [|j] y Hj; cbn; [congruence|].
        intros Ey. apply (Hmin j y); [lia | assumption].
      * intros ([|i] & E & Fm & Hmin).
        -- cbn in E. congruence.
        -- exists i. repeat split; try assumption.
           intros j y Hj Ey. apply (Hmin (S j) y); [lia | assumption].
Qed.

Lemma forEach_magics (xs : list dyn) (w : World) :
  forEach (fun x => magic ← stringOr "magic declaration invalid" x;
                    mret (bytesOf magic)) xs w =
  (match strings xs with
   | Some names => Ok (map bytesOf names)
   | None => Panic "magic declaration invalid"
   end, w).
Proof.
  induction xs as [|x xs IH]; [reflexivity|].
  destruct x; try reflexivity.
  cbn [forEach strings]. run. rewrite IH.
  now destruct (strings xs).
Qed.

Lemma buildHandler_proxy (env : Env) (v : Protocol) :
  Kind v = "proxy" -> buildHandler env v = buildProxy (Conf v).
Proof. unfold buildHandler. now intros ->. Qed.

(** C5: a proxy declared with a list of patterns claims a connection
    exactly when one of the patterns begins the buffered bytes, and the
    pattern selected is then the first one, in declared order, that does. *)
Theorem multiproxy_first_match (env : Env) (v : Protocol) (w : World)
    (pats : list string) (target : string) :
  Kind v = "proxy" ->
  Conf v !! "magic" = Some (DList (map DStr pats)) ->
  Conf v !! "target" = Some (DStr target) ->
  let h := proto.NewMultiProxy (map bytesOf pats) "tcp" target in
  buildHandler env v w = (Ok h, w) /\
  forall buffered,
    (matching.claims h buffered = true <->
     exists p, In p pats /\ bytesOf p `prefix_of` buffered) /\
    (forall m,
       matching.selected (matching.magicsOf h) buffered = Some m <->
       exists i p,
         pats !! i = Some p /\ m = bytesOf p /\
         bytesOf p `prefix_of` buffered /\
         forall j q, (j < i)%nat -> pats !! j = Some q ->
                     ~ bytesOf q `prefix_of` buffered).
Proof.
  intros K Hm Ht h. split.
  - rewrite (buildHandler_proxy env v K). unfold buildProxy.
    rewrite Hm, Ht. run. unfold id. rewrite forEach_magics.
    now rewrite (proj2 (strings_Some _ pats) eq_refl).
  - intros buffered.
    assert (forall m,
       matching.selected (matching.magicsOf h) buffered = Some m <->
       exists i p,
         pats !! i = Some p /\ m = bytesOf p /\
         bytesOf p `prefix_of` buffered /\
         forall j q, (j < i)%nat -> pats !! j = Some q ->
                     ~ bytesOf q `prefix_of` buffered) as Hsel.
    { intros m. unfold matching.selected. cbn [matching.magicsOf h].
      rewrite find_first. split.
      - intros (i & E & P & Hmin). rewrite list_lookup_fmap in E.
        destruct (pats !! i) as [p|] eqn:Ep; [|discriminate].
        injection E as <-. exists i, p.
        apply hasPrefix_prefix in P. repeat split; try assumption.
        intros j q Hj Eq Pq. apply hasPrefix_prefix in Pq.
        rewrite (Hmin j (bytesOf q) Hj) in Pq; [discriminate|].
        now rewrite list_lookup_fmap, Eq.
      - intros (i & p & Ep & -> & P & Hmin). exists i.
        rewrite list_lookup_fmap, Ep. repeat split.
        + now apply hasPrefix_prefix.
        + intros j y Hj Ey. rewrite list_lookup_fmap in Ey.
          destruct (pats !! j) as [q|] eqn:Eq; [|discriminate].
          injection Ey as <-.
          destruct (matching.hasPrefix buffered (bytesOf q)) eqn:Pq;
            [|reflexivity].
          apply hasPrefix_prefix in Pq. now destruct (Hmin j q Hj Eq). }
    split; [|exact Hsel].
    unfold matching.claims, matching.selected. cbn [matching.magicsOf h].
    split.
    + destruct (List.find _ _) as [m|] eqn:F; [|discriminate]. intros _.
      apply find_some in F as [Hin P]. apply in_map_iff in Hin as (p & <- & Hp).
      exists p. split; [assumption|]. now apply hasPrefix_prefix.
    + intros (p & Hp & P).
      destruct (List.find _ _) as [m|] eqn:F; [reflexivity|].
      assert (In (bytesOf p) (map bytesOf pats)) as Hin by now apply in_map.
      apply (find_none _ _ F) in Hin. apply hasPrefix_prefix in P. congruence.
Qed.

Lemma multiproxy_first_match_witness :
  let h := proto.NewMultiProxy [ bytesOf "SS"; bytesOf "SSH" ] "tcp"
             "localhost:22" in
  buildHandler sampleEnv sshProxy initial = (Ok h, initial) /\
  matching.claims h (bytesOf "SSH-2.0") = true /\
  matching.selected (matching.magicsOf h) (bytesOf "SSH-2.0")
    = Some (bytesOf "SS") /\
  matching.claims h (bytesOf "GET /") = false.
Proof.
  destruct (multiproxy_first_match sampleEnv sshProxy initial [ "SS"; "SSH" ]
              "localhost:22" eq_refl eq_refl eq_refl) as (B & H).
  split; [exact B|].
  split; [|split].
  - apply (H (bytesOf "SSH-2.0")). exists "SS". split; [now left|].
    now exists (bytesOf "H-2.0").
  - apply (H (bytesOf "SSH-2.0")). exists 0%nat, "SS".
    repeat split; [now exists (bytesOf "H-2.0") | lia].
  - destruct (matching.claims _ (bytesOf "GET /")) eqn:E; [|reflexivity].
    apply (H (bytesOf "GET /")) in E as (p & [<-|[<-|[]]] & [k E]);
      discriminate.
Defined.

(** ** The factory does not depend on the world *)

Lemma steady_ret {A : Type} (a : A) : steady (mret a).
Proof.
  intros w. repeat split. exists []. now rewrite app_nil_r.
Qed.

Lemma steady_panic {A : Type} (v : string) : steady (@panic A v).
Proof.
  intros w. repeat split. exists []. now rewrite app_nil_r.
Qed.

Lemma steady_bind {A B : Type} (m : M A) (f : A -> M B) :
  steady m -> (forall a, steady (f a)) -> steady (m ≫= f).
Proof.
  intros Hm Hf w. unfold mbind, M_bind.
  destruct (Hm w) as (R & S & extra & T & Q).
  destruct (m w) as [r w1], (m initial) as [r0 w0]. cbn in R, S, T. subst r0.
  destruct r as [a|v]; cbn.
  - destruct (Hf a w1) as (R1 & S1 & extra1 & T1 & Q1).
    destruct (Hf a w0) as (R0 & _).
    repeat split; [congruence | congruence |].
    exists (extra ++ extra1). rewrite T1, T, app_assoc. split; [reflexivity|].
    rewrite forallb_app. now rewrite Q, Q1.
  - repeat split; [assumption|]. now exists extra.
Qed.

Lemma steady_emit (e : Event) : quiet e = true -> steady (emit e).
Proof.
  intros Q w. repeat split. exists [ e ]. cbn. now rewrite Q.
Qed.

Lemma steady_logit (format : string) (msg : list logArg) :
  steady (logit format msg).
Proof.
  intros w. unfold logit.
  destruct (logger w || negb (confReady w)),
           (logger initial || negb (confReady initial));
    repeat split; (exists [ EvLog format msg ] + exists []); cbn;
    now rewrite ?app_nil_r.
Qed.

Lemma steady_need {A : Type} (o : option A) (message : string) :
  steady (need o message).
Proof. destruct o; [apply steady_ret | apply steady_panic]. Qed.

Lemma steady_when (b : bool) (m : M unit) : steady m -> steady (when b m).
Proof. destruct b; [trivial | intros _; apply steady_ret]. Qed.

Lemma steady_stringOr (message : string) (x : dyn) :
  steady (stringOr message x).
Proof. destruct x; (apply steady_ret || apply steady_panic). Qed.

Lemma steady_forEach {A B : Type} (f : A -> M B) (xs : list A) :
  (forall x, steady (f x)) -> steady (forEach f xs).
Proof.
  intros Hf. induction xs as [|x xs IH]; cbn [forEach].
  - apply steady_ret.
  - apply steady_bind; [apply Hf|]. intros y.
    apply steady_bind; [apply IH|]. intros ys. apply steady_ret.
Qed.

Lemma steady_readFile (env : Env) (name : string) :
  steady (readFile env name).
Proof.
  apply steady_bind; [now apply steady_emit|]. intros _. apply steady_ret.
Qed.

Ltac steady_step :=
  first
    [ apply steady_ret | apply steady_panic | apply steady_logit
    | apply steady_need | apply steady_stringOr | apply steady_readFile
    | apply steady_emit; reflexivity
    | apply steady_when
    | apply steady_forEach; intros ?
    | apply steady_bind; [|intros ?]
    | match goal with
      | |- steady (match ?x with _ => _ end) => destruct x
      | |- steady (let '(_, _) := ?x in _) => destruct x
      end ].

Lemma steady_buildHandler (env : Env) (v : Protocol) :
  steady (buildHandler env v).
Proof.
  unfold buildHandler.
  repeat match goal with
         | |- steady (if ?b then _ else _) => destruct b
         end;
    unfold buildProxy, buildTLS, buildTLSMatcher, buildHTTP;
    repeat steady_step.
Qed.

(** Wherever it runs, the factory gives [handlerOf], and the server and
    the socket are as before. *)
Lemma buildHandler_handlerOf (env : Env) (v : Protocol) (w : World) :
  exists w',
    buildHandler env v w = (handlerOf env v, w') /\
    server w' = server w /\
    exists extra, trace w' = trace w ++ extra /\ forallb quiet extra = true.
Proof.
  destruct (steady_buildHandler env v w) as (R & S & T).
  exists (snd (buildHandler env v w)). repeat split; try assumption.
  unfold handlerOf. rewrite <- R. now destruct (buildHandler env v w).
Qed.

(** ** Registration of the handlers *)

Lemma register_registerIn (v : Protocol) (h : proto.ProtocolHandler)
    (w : World) :
  exists w',
    register v h w = (Ok tt, w') /\
    server w' = registerIn (server w) v h /\ trace w' = trace w.
Proof.
  unfold register, registerIn, getServer, setServer. run.
  destruct (AsDefault v); eexists; repeat split.
Qed.

Lemma configure_cons_Ok (env : Env) (v : Protocol) (rest : list Protocol)
    (h : proto.ProtocolHandler) (w : World) :
  handlerOf env v = Ok h ->
  exists w1,
    configure env (v :: rest) w = configure env rest w1 /\
    server w1 = registerIn (server w) v h /\
    exists extra, trace w1 = trace w ++ extra /\ forallb quiet extra = true.
Proof.
  intros Hh.
  destruct (buildHandler_handlerOf env v w) as (w0 & B & S & T).
  destruct (register_registerIn v h w0) as (w1 & R & S1 & T1).
  exists w1. rewrite Hh in B. cbn [configure].
  rewrite (bind_Ok _ _ _ _ _ B), (bind_Ok _ _ _ _ _ R).
  repeat split; [congruence|]. now rewrite T1.
Qed.

(** C6: when every protocol can be built, the loop ends without panic;
    the detectors are the handlers of the protocols not marked default,
    in declared order, after those registered before; the default
    protocol is the handler of the last protocol marked default, whatever
    was marked before it, and is left as it was when none is marked. *)
Theorem last_default_wins (env : Env) (ps : list Protocol)
    (hs : list proto.ProtocolHandler) (w : World) :
  Forall2 (fun v h => handlerOf env v = Ok h) ps hs ->
  exists w',
    configure env ps w = (Ok tt, w') /\
    serve2.handlers (server w')
      = serve2.handlers (server w) ++ detectors ps hs /\
    (forall i v h,
       ps !! i = Some v -> hs !! i = Some h -> AsDefault v = true ->
       (forall j v', (i < j)%nat -> ps !! j = Some v' -> AsDefault v' = false) ->
       serve2.DefaultProtocol (server w') = Some h) /\
    ((forall v, In v ps -> AsDefault v = false) ->
     serve2.DefaultProtocol (server w') = serve2.DefaultProtocol (server w)).
Proof.
  intros F. revert w.
  induction F as [|v h ps hs Hh F IH]; intros w.
  - exists w. cbn. rewrite app_nil_r. repeat split.
    intros i v h E. destruct i; discriminate.
  - destruct (configure_cons_Ok env v ps h w Hh) as (w1 & E & Sv & _).
    destruct (IH w1) as (w' & C & Hd & Hlast & Hnone).
    exists w'. rewrite E. split; [exact C|]. split; [|split].
    + rewrite Hd, Sv. unfold registerIn. cbn [detectors].
      destruct (AsDefault v); cbn; [reflexivity|].
      now rewrite <- app_assoc.
    + intros [|i] v0 h0 Ev Eh D Later.
      * cbn in Ev, Eh. injection Ev as <-. injection Eh as <-.
        rewrite Hnone, Sv.
        -- unfold registerIn. now rewrite D.
        -- intros v' Hin. apply list_elem_of_In, list_elem_of_lookup in Hin
             as [j Hj].
           apply (Later (S j) v'); [lia | exact Hj].
      * apply (Hlast i v0 h0 Ev Eh D). intros j v' Hj Ej.
        apply (Later (S j) v'); [lia | exact Ej].
    + intros None. rewrite Hnone, Sv.
      * unfold registerIn. now rewrite (None v (or_introl eq_refl)).
      * intros v' Hin. apply None. now right.
Qed.

Lemma last_default_wins_witness :
  exists w',
    configure sampleEnv twoDefaults initial = (Ok tt, w') /\
    serve2.DefaultProtocol (server w') = Some proto.NewDiscard /\
    serve2.handlers (server w')
      = [ proto.NewMultiProxy [ bytesOf "SS"; bytesOf "SSH" ] "tcp"
            "localhost:22";
          proto.NewHTTP siteHandler ].
Proof.
  destruct (last_default_wins sampleEnv twoDefaults
              [ proto.NewEcho;
                proto.NewMultiProxy [ bytesOf "SS"; bytesOf "SSH" ] "tcp"
                  "localhost:22";
                proto.NewDiscard;
                proto.NewHTTP siteHandler ] initial)
    as (w' & C & Hd & Hlast & _).
  { repeat constructor. }
  exists w'. split; [exact C|]. split.
  - apply (Hlast 2%nat discardDefault proto.NewDiscard);
      try reflexivity.
    intros [|[|[|[|j]]]] v' Hj; try lia; cbn; intros [= <-]; reflexivity.
  - exact Hd.
Defined.

(** ** The listener and the factory *)

Lemma grows_unchanged {A : Type} (m : M A) :
  (forall w, trace (snd (m w)) = trace w) -> grows m.
Proof. intros H w. exists []. now rewrite H, app_nil_r. Qed.

Lemma grows_bind {A B : Type} (m : M A) (f : A -> M B) :
  grows m -> (forall a, grows (f a)) -> grows (m ≫= f).
Proof.
  intros Hm Hf w. unfold mbind, M_bind.
  destruct (Hm w) as (extra & T & Q).
  destruct (m w) as [[a|v] w1]; cbn in T |- *.
  - destruct (Hf a w1) as (extra1 & T1 & Q1).
    exists (extra ++ extra1). rewrite T1, T, app_assoc. split; [reflexivity|].
    rewrite forallb_app. now rewrite Q, Q1.
  - now exists extra.
Qed.

Lemma grows_emit (e : Event) : notServe e = true -> grows (emit e).
Proof. intros Q w. exists [ e ]. cbn. now rewrite Q. Qed.

Lemma grows_logit (format : string) (msg : list logArg) :
  grows (logit format msg).
Proof.
  intros w. unfold logit. destruct (logger w || negb (confReady w)).
  - now exists [ EvLog format msg ].
  - exists []. cbn. now rewrite app_nil_r.
Qed.

Lemma grows_when (b : bool) (m : M unit) : grows m -> grows (when b m).
Proof. destruct b; [trivial | intros _; now apply grows_unchanged]. Qed.

Lemma grows_steady {A : Type} (m : M A) : steady m -> grows m.
Proof.
  intros H w. destruct (H w) as (_ & _ & extra & T & Q).
  exists extra. split; [exact T|].
  rewrite forallb_forall in Q |- *. intros e He.
  specialize (Q e He). now destruct e.
Qed.

Ltac grows_step :=
  first
    [ apply grows_unchanged; reflexivity
    | apply grows_logit
    | apply grows_emit; reflexivity
    | apply grows_steady; apply steady_readFile
    | apply grows_when
    | apply grows_bind; [|intros ?]
    | match goal with
      | |- grows (match ?x with _ => _ end) => destruct x
      end ].

Lemma grows_startup (env : Env) : grows (startup env).
Proof. unfold startup. repeat grows_step. Qed.

Lemma startup_listens (env : Env) (conf : Config) (w w1 : World) :
  startup env w = (Ok conf, w1) ->
  Listen env (Address conf) = Success tt /\
  In (EvListen (Address conf) true) (trace w1).
Proof.
  unfold startup. intros H.
  do 11 (apply bind_inv_Ok in H as (? & ? & _ & H)).
  destruct (Listen env (Address _)) as [[]|err] eqn:L.
  - apply bind_inv_Ok in H as ([] & w2 & E & H).
    apply bind_inv_Ok in H as ([] & w3 & G & H).
    injection H as <- <-. split; [exact L|].
    match type of G with
    | logit ?format ?msg _ = _ =>
        destruct (grows_logit format msg w2) as (extra & T & _)
    end.
    rewrite G in T. cbn in T. rewrite T.
    injection E as <-. cbn. apply in_or_app. left. apply in_or_app. right.
    now left.
  - apply bind_inv_Ok in H as ([] & w2 & _ & H).
    apply bind_inv_Ok in H as ([] & w3 & _ & H). discriminate.
Qed.

Lemma configure_fails (env : Env) (ps : list Protocol) (w : World) :
  Exists (fun v => exists m, handlerOf env v = Panic m) ps ->
  exists m w',
    configure env ps w = (Panic m, w') /\
    exists extra, trace w' = trace w ++ extra /\ forallb quiet extra = true.
Proof.
  revert w. induction ps as [|v ps IH]; intros w Hex.
  - inversion Hex.
  - destruct (handlerOf env v) as [h|m] eqn:Hh.
    + destruct (configure_cons_Ok env v ps h w Hh)
        as (w1 & E & _ & extra & T & Q).
      assert (Exists (fun v => exists m, handlerOf env v = Panic m) ps) as Hps.
      { inversion Hex as [? ? [m Hm]|]; [congruence | assumption]. }
      destruct (IH w1 Hps) as (m & w' & C & extra1 & T1 & Q1).
      exists m, w'. rewrite E. split; [exact C|].
      exists (extra ++ extra1). rewrite T1, T, app_assoc.
      split; [reflexivity|]. rewrite forallb_app. now rewrite Q, Q1.
    + destruct (buildHandler_handlerOf env v w) as (w0 & B & _ & T).
      rewrite Hh in B. exists m, w0. cbn [configure].
      now rewrite (bind_Panic _ _ _ _ _ B).
Qed.

Lemma unrecognized_kind_panics (env : Env) (v : Protocol) :
  recognized (Kind v) = false ->
  handlerOf env v = Panic ("Unknown kind: " +:+ Kind v).
Proof.
  unfold recognized, handlerOf, buildHandler. cbn [existsb].
  rewrite !orb_false_iff. intros (-> & -> & -> & -> & -> & -> & _).
  reflexivity.
Qed.

(** C1, as [main] has it: the factory runs only after [net.Listen] has
    succeeded.  When a protocol cannot be built (its kind is not
    recognized, a required option is missing, a file cannot be read),
    [main] panics with the listening socket open, and [Serve] is never
    called on it. *)
Theorem handler_failure_after_listen (env : Env) (conf : Config)
    (w1 : World) :
  startup env initial = (Ok conf, w1) ->
  Exists (fun v => recognized (Kind v) = false
                   \/ exists m, handlerOf env v = Panic m)
         (Protocols conf) ->
  (exists m w2, mainBody env initial = (Panic m, w2)) /\
  In (EvListen (Address conf) true) (trace (main env)) /\
  ~ served (main env).
Proof.
  intros St Hex.
  assert (Exists (fun v => exists m, handlerOf env v = Panic m)
            (Protocols conf)) as Hex'.
  { apply Exists_exists in Hex as (v & Hin & [U|P]); apply Exists_exists;
      exists v; (split; [exact Hin|]); [|exact P].
    eexists. now apply unrecognized_kind_panics. }
  destruct (configure_fails env (Protocols conf) w1 Hex')
    as (m & w2 & C & extra & T & Q).
  assert (mainBody env initial = (Panic m, w2)) as Hmain.
  { unfold mainBody. rewrite (bind_Ok _ _ _ _ _ St).
    now rewrite (bind_Panic _ _ _ _ _ C). }
  destruct (startup_listens env conf initial w1 St) as (_ & Hl).
  destruct (grows_startup env initial) as (extra0 & T0 & Q0).
  rewrite St in T0. cbn in T0.
  destruct (grows_logit "Panicked: %s" [ LStr m ] w2) as (extra2 & T2 & Q2).
  assert (trace (main env) = (extra0 ++ extra) ++ extra2) as Htrace.
  { unfold main. rewrite Hmain, T2, T, T0. reflexivity. }
  split; [now exists m, w2|]. split.
  - rewrite Htrace, <- T0. apply in_or_app. left. apply in_or_app. now left.
  - intros [a Ha]. rewrite Htrace in Ha.
    assert (forallb notServe ((extra0 ++ extra) ++ extra2) = true) as Hall.
    { rewrite !forallb_app, Q0, Q2, andb_true_r. cbn.
      rewrite forallb_forall in Q |- *. intros e He.
      specialize (Q e He). now destruct e. }
    rewrite forallb_forall in Hall. now specialize (Hall _ Ha).
Qed.

(** C1 fails as stated: the configuration holds a protocol of an
    unrecognized kind, and [main] has opened the listening socket by the
    time the factory refuses it. *)
Lemma unknown_kind_listener_opened :
  recognized (Kind gopher) = false /\
  fst (mainBody gopherEnv initial) = Panic "Unknown kind: gopher" /\
  trace (main gopherEnv)
    = [ EvReadFile "conf.json";
        EvLog "Maximum buffer size: %d" [ LInt 128 ];
        EvListen ":80" true;
        EvLog "Listening on: %s" [ LStr ":80" ];
        EvLog "Panicked: %s" [ LStr "Unknown kind: gopher" ] ] /\
  listenerOpened (main gopherEnv).
Proof.
  repeat split. exists ":80". vm_compute. tauto.
Qed.

Lemma handler_failure_after_listen_witness :
  (exists m w2, mainBody gopherEnv initial = (Panic m, w2)) /\
  In (EvListen ":80" true) (trace (main gopherEnv)) /\
  ~ served (main gopherEnv).
Proof.
  apply (handler_failure_after_listen gopherEnv
           (configOf [ sshProxy; gopher ]) (snd (startup gopherEnv initial))).
  - vm_compute. reflexivity.
  - right. left. left. reflexivity.
Defined.

(** ** Paths *)

(** The model of [path.Clean] on the table of Go's own tests. *)
Example Clean_table :
  map path.Clean
    [ ""; "abc"; "abc/def"; "a/b/c"; "."; ".."; "../.."; "../../abc";
      "/abc"; "/"; "abc/"; "abc/def/"; "a/b/c/"; "./"; "../"; "../../";
      "/abc/"; "abc//def//ghi"; "//abc"; "///abc"; "//abc//"; "abc//";
      "abc/./def"; "/./abc/def"; "abc/."; "abc/def/ghi/../jkl";
      "abc/def/../ghi/../jkl"; "abc/def/.."; "abc/def/../..";
      "/abc/def/../.."; "abc/def/../../.."; "/abc/def/../../..";
      "abc/def/../../../ghi/jkl/../../../mno"; "abc/./../def";
      "abc//./../def"; "abc/../../././../def" ]
  = [ "."; "abc"; "abc/def"; "a/b/c"; "."; ".."; "../.."; "../../abc";
      "/abc"; "/"; "abc"; "abc/def"; "a/b/c"; "."; ".."; "../..";
      "/abc"; "abc/def/ghi"; "/abc"; "/abc"; "/abc"; "abc";
      "abc/def"; "/abc/def"; "abc"; "abc/def/jkl";
      "abc/jkl"; "abc"; ".";
      "/"; ".."; "/";
      "../../mno"; "def";
      "def"; "../../def" ].
Proof. reflexivity. Qed.

Example Join_table :
  map path.Join
    [ [ "a"; "b" ]; [ "a"; "" ]; [ ""; "b" ]; [ "/"; "a" ]; [ "/"; "" ];
      [ "a/"; "b" ]; [ "a/"; "" ]; [ ""; "" ]; [ "/srv/http"; "./../x" ] ]
  = [ "a/b"; "a"; "b"; "/a"; "/"; "a/b"; "a"; ""; "/srv/x" ].
Proof. reflexivity. Qed.

Lemma split_not_nil (s : string) : path.split s <> [].
Proof.
  destruct s as [|c s]; cbn; [discriminate|].
  destruct (Ascii.eqb c path.slash); [discriminate|].
  destruct (path.split s); discriminate.
Qed.

Lemma split_slashFree (s : string) :
  Forall (fun e => slashFree e = true) (path.split s).
Proof.
  induction s as [|c s IH]; cbn.
  - now repeat constructor.
  - destruct (Ascii.eqb c path.slash) eqn:E.
    + now constructor.
    + destruct (path.split s) as [|e es].
      * constructor; [|constructor]. cbn. now rewrite E.
      * inversion IH as [|? ? He Hes]; subst.
        constructor; [|assumption]. cbn. now rewrite E.
Qed.

Lemma split_app_slash (a b : string) :
  path.split (a +:+ String path.slash b) = path.split a ++ path.split b.
Proof.
  induction a as [|c a IH].
  - reflexivity.
  - change (String c a +:+ String path.slash b)
      with (String c (a +:+ String path.slash b)).
    cbn [path.split]. destruct (Ascii.eqb c path.slash).
    + now rewrite IH.
    + rewrite IH. pose proof (split_not_nil a) as N.
      now destruct (path.split a).
Qed.

Lemma split_single (e : string) :
  slashFree e = true -> path.split e = [ e ].
Proof.
  induction e as [|c e IH]; cbn; [reflexivity|].
  intros H. apply andb_true_iff in H as [Hc He].
  apply negb_true_iff in Hc. now rewrite Hc, (IH He).
Qed.

Lemma split_join (es : list string) :
  es <> [] -> Forall (fun e => slashFree e = true) es ->
  path.split (path.join es) = es.
Proof.
  induction es as [|e es IH]; [congruence|]. intros _ F.
  inversion F as [|? ? He Hes]; subst.
  destruct es as [|e' es].
  - now apply split_single.
  - change (path.join (e :: e' :: es))
      with (e +:+ String path.slash (path.join (e' :: es))).
    rewrite split_app_slash, (split_single e He), IH; [reflexivity| |assumption].
    discriminate.
Qed.

Lemma real_slashFree (e : string) : real e = true -> slashFree e = true.
Proof. unfold real. rewrite !andb_true_iff. tauto. Qed.

Lemma real_notDotDot (e : string) : real e = true -> notDotDot e = true.
Proof. unfold real, notDotDot. rewrite !andb_true_iff. tauto. Qed.

Lemma step_real (isRooted : bool) (stack : list string) (e : string) :
  real e = true -> path.step isRooted stack e = e :: stack.
Proof.
  unfold real, path.step. rewrite !andb_true_iff, !negb_true_iff.
  now intros [[[-> ->] ->] _].
Qed.

Lemma good_slashFree (isRooted : bool) (stack : list string) :
  good isRooted stack -> Forall (fun e => slashFree e = true) stack.
Proof.
  induction 1 as [k _|e stack He _ IH].
  - induction k; cbn; now constructor.
  - constructor; [now apply real_slashFree | assumption].
Qed.

Lemma good_rooted_real (stack : list string) :
  good true stack -> Forall (fun e => real e = true) stack.
Proof.
  induction 1 as [k Hk|e stack He _ IH].
  - rewrite (Hk eq_refl). constructor.
  - now constructor.
Qed.

Lemma good_step (isRooted : bool) (stack : list string) (e : string) :
  slashFree e = true -> good isRooted stack ->
  good isRooted (path.step isRooted stack e).
Proof.
  intros Se G. unfold path.step.
  destruct (String.eqb e "") eqn:E0; [assumption|].
  destruct (String.eqb e ".") eqn:E1; [assumption|].
  destruct (String.eqb e "..") eqn:E2.
  - apply String.eqb_eq in E2 as ->.
    destruct G as [k Hk|top stack Ht G].
    + destruct k as [|k]; cbn.
      * destruct isRooted.
        -- now apply (good_dots true 0).
        -- now apply (good_dots false 1).
      * apply (good_dots isRooted (S (S k))). intros R.
        now specialize (Hk R).
    + assert (String.eqb top ".." = false) as ->; [|assumption].
      unfold real in Ht. rewrite !andb_true_iff, !negb_true_iff in Ht. tauto.
  - apply good_push; [|assumption].
    unfold real. now rewrite E0, E1, E2, Se.
Qed.

Lemma good_fold (isRooted : bool) (es stack : list string) :
  Forall (fun e => slashFree e = true) es -> good isRooted stack ->
  good isRooted (fold_left (path.step isRooted) es stack).
Proof.
  intros F. revert stack. induction F as [|e es He _ IH]; intros stack G.
  - exact G.
  - cbn. apply IH. now apply good_step.
Qed.

Lemma good_elems (s : string) :
  good (path.rooted s) (rev (path.elems s)).
Proof.
  unfold path.elems. rewrite rev_involutive.
  apply good_fold; [apply split_slashFree | now apply (good_dots _ 0)].
Qed.

(** Elements without any [..] are pushed or skipped. *)
Lemma fold_notDotDot (isRooted : bool) (es stack : list string) :
  forallb notDotDot es = true ->
  exists kept,
    fold_left (path.step isRooted) es stack = rev kept ++ stack /\
    forallb notDotDot kept = true.
Proof.
  revert stack. induction es as [|e es IH]; intros stack H.
  - now exists [].
  - cbn in H. apply andb_true_iff in H as [He Hes]. cbn [fold_left].
    unfold notDotDot in He. apply negb_true_iff in He.
    assert (path.step isRooted stack e = stack
            \/ path.step isRooted stack e = e :: stack) as [-> | ->].
    { unfold path.step. rewrite He.
      destruct (String.eqb e ""); [now left|].
      destruct (String.eqb e "."); [now left | now right]. }
    + now apply IH.
    + destruct (IH (e :: stack) Hes) as (kept & E & K).
      exists (e :: kept). cbn. rewrite E, <- app_assoc. split; [reflexivity|].
      unfold notDotDot at 1. now rewrite He.
Qed.

Lemma step_dots (k : nat) :
  path.step false (repeat ".." k) ".." = repeat ".." (S k).
Proof. now destruct k. Qed.

(** Reading a good stack again gives the same stack. *)
Lemma fold_good (isRooted : bool) (stack : list string) :
  good isRooted stack ->
  fold_left (path.step isRooted) (rev stack) [] = stack.
Proof.
  induction 1 as [k Hk|e stack He _ IH].
  - destruct isRooted; [now rewrite (Hk eq_refl)|]. clear Hk.
    induction k as [|k IH]; [reflexivity|].
    cbn [repeat rev]. rewrite fold_left_app, IH. cbn [fold_left].
    apply step_dots.
  - cbn [rev]. rewrite fold_left_app, IH. cbn [fold_left].
    now apply step_real.
Qed.

Lemma real_startsPlain (e : string) : real e = true -> startsPlain e = true.
Proof.
  unfold real. destruct e as [|c e]; [discriminate|]. cbn [slashFree].
  rewrite !andb_true_iff. cbn. tauto.
Qed.

Lemma good_startsPlain (isRooted : bool) (stack : list string) :
  good isRooted stack -> Forall (fun e => startsPlain e = true) stack.
Proof.
  induction 1 as [k _|e stack He _ IH].
  - induction k; cbn; now constructor.
  - constructor; [now apply real_startsPlain | assumption].
Qed.

Lemma rooted_join (e : string) (es : list string) :
  startsPlain e = true -> path.rooted (path.join (e :: es)) = false.
Proof.
  destruct e as [|c e]; [discriminate|]. cbn [startsPlain].
  intros H. apply negb_true_iff in H.
  destruct es; cbn; exact H.
Qed.

Lemma rooted_render (isRooted : bool) (stack : list string) :
  good isRooted stack ->
  path.rooted (path.render isRooted (rev stack)) = isRooted.
Proof.
  intros G. destruct isRooted; [reflexivity|].
  apply good_startsPlain, Forall_rev in G.
  unfold path.render. destruct (rev stack) as [|e es]; [reflexivity|].
  inversion G; subst. now apply rooted_join.
Qed.

Lemma fold_render (isRooted : bool) (stack : list string) :
  good isRooted stack ->
  fold_left (path.step isRooted)
    (path.split (path.render isRooted (rev stack))) [] = stack.
Proof.
  intros G. pose proof (fold_good isRooted stack G) as F.
  pose proof (good_slashFree isRooted stack G) as S.
  apply Forall_rev in S.
  destruct isRooted; unfold path.render.
  - change (path.split (String path.slash (path.join (rev stack))))
      with ("" :: path.split (path.join (rev stack))).
    cbn [fold_left]. change (path.step true [] "") with (@nil string).
    destruct (rev stack) as [|e es] eqn:E.
    + cbn. now rewrite <- F.
    + rewrite split_join; [exact F | discriminate | exact S].
  - destruct (rev stack) as [|e es] eqn:E.
    + cbn. now rewrite <- F.
    + rewrite split_join; [exact F | discriminate | exact S].
Qed.

(** A cleaned path has the elements it was rendered from. *)
Lemma elems_render (isRooted : bool) (stack : list string) :
  good isRooted stack ->
  path.elems (path.render isRooted (rev stack)) = rev stack.
Proof.
  intros G. unfold path.elems.
  now rewrite (rooted_render isRooted stack G), (fold_render isRooted stack G).
Qed.

Lemma underElems_app (root more : list string) :
  underElems root (root ++ more) = forallb notDotDot more.
Proof.
  induction root as [|e root IH]; cbn.
  - reflexivity.
  - now rewrite String.eqb_refl, IH.
Qed.

Lemma join_real_not_empty (e : string) (es : list string) :
  real e = true -> path.join (e :: es) <> "".
Proof.
  intros H. apply real_startsPlain in H.
  destruct e as [|c e]; [discriminate|]. destruct es; discriminate.
Qed.

(** What [resolve] hands to [path.Join] after the root, and the elements
    the cleaned request contributes. *)
Lemma resolve_shape (h : httpHandler) (u : string) :
  path.rooted u = true ->
  exists q,
    resolve h u = path.Join [ path h; "./" +:+ q ] /\
    (path.Clean u = "/" -> q = defaultFile h) /\
    (path.Clean u <> "/" -> forallb notDotDot (path.split q) = true).
Proof.
  intros R. unfold resolve.
  assert (String.eqb u "" = false) as NE by now destruct u.
  unfold path.Clean. rewrite NE, R. unfold path.render.
  pose proof (good_elems u) as G. rewrite R in G.
  apply good_rooted_real, Forall_rev in G. rewrite rev_involutive in G.
  destruct (path.elems u) as [|e es] eqn:E.
  - exists (defaultFile h). cbn. repeat split. intros N. now destruct N.
  - exists (path.join (e :: es)). inversion G as [|? ? He Hes]; subst.
    assert (String.eqb ("." +:+ String path.slash (path.join (e :: es))) "./"
            = false) as ->.
    { apply String.eqb_neq. intros [= J].
      now apply (join_real_not_empty e es He). }
    split; [reflexivity|]. split.
    + intros [= J]. now destruct (join_real_not_empty e es He).
    + intros _. rewrite split_join; [|discriminate|].
      * apply forallb_forall. intros x Hx.
        rewrite Forall_forall in G. apply real_notDotDot, G.
        now apply list_elem_of_In.
      * eapply Forall_impl; [exact G|]. intros x. apply real_slashFree.
Qed.

(** Joining the root with a relative path without [..] adds elements
    after those of the root. *)
Lemma Join_under (root q : string) :
  forallb notDotDot (path.split q) = true ->
  exists kept,
    path.Join [ root; "./" +:+ q ]
      = path.render (path.rooted root) (path.elems root ++ kept) /\
    forallb notDotDot kept = true /\
    good (path.rooted root) (rev (path.elems root ++ kept)).
Proof.
  intros Hq. unfold path.Join. cbn [List.filter].
  change (negb (String.eqb ("./" +:+ q) "")) with true. cbn [negb].
  destruct root as [|c root'].
  - cbn [String.eqb negb path.join]. unfold path.Clean.
    change (String.eqb ("./" +:+ q) "") with false. cbv iota.
    change (path.rooted ("./" +:+ q)) with false.
    unfold path.elems at 1.
    change (path.rooted ("./" +:+ q)) with false.
    change (path.split ("./" +:+ q)) with ("." :: path.split q).
    cbn [fold_left]. change (path.step false [] ".") with (@nil string).
    destruct (fold_notDotDot false (path.split q) [] Hq) as (kept & E & K).
    exists kept. rewrite E, app_nil_r, rev_involutive.
    change (path.elems "") with (@nil string). cbn [app path.rooted].
    repeat split; [exact K|].
    rewrite <- (app_nil_r (rev kept)), <- E.
    apply good_fold; [apply split_slashFree | now apply (good_dots _ 0)].
  - set (root := String c root').
    change (negb (String.eqb root "")) with true. cbv iota.
    change (path.join [ root; "./" +:+ q ])
      with (root +:+ String path.slash ("./" +:+ q)).
    unfold path.Clean.
    change (String.eqb (root +:+ String path.slash ("./" +:+ q)) "")
      with false. cbv iota.
    change (path.rooted (root +:+ String path.slash ("./" +:+ q)))
      with (path.rooted root).
    unfold path.elems at 1.
    change (path.rooted (root +:+ String path.slash ("./" +:+ q)))
      with (path.rooted root).
    rewrite split_app_slash.
    change (path.split ("./" +:+ q)) with ("." :: path.split q).
    rewrite fold_left_app. cbn [fold_left].
    set (stack := fold_left (path.step (path.rooted root)) (path.split root) []).
    change (path.step (path.rooted root) stack ".") with stack.
    destruct (fold_notDotDot (path.rooted root) (path.split q) stack Hq)
      as (kept & E & K).
    exists kept. rewrite E, rev_app_distr, rev_involutive.
    change (rev stack) with (path.elems root).
    repeat split; [exact K|].
    rewrite rev_app_distr. unfold path.elems. rewrite rev_involutive.
    fold stack. rewrite <- E.
    apply good_fold; [apply split_slashFree|].
    apply good_fold; [apply split_slashFree | now apply (good_dots _ 0)].
Qed.

(** A request path that begins with a slash is resolved under the root,
    whatever traversal segments it holds
    (when it cleans to the root itself, the default file is read, which
    must then not hold [..] either). *)
Lemma rooted_request_stays_under_root (h : httpHandler) (u : string) :
  path.rooted u = true ->
  (path.Clean u = "/" ->
   forallb notDotDot (path.split (defaultFile h)) = true) ->
  underRoot (path h) (resolve h u) = true.
Proof.
  intros R D. destruct (resolve_shape h u R) as (q & -> & Hd & Hq).
  assert (forallb notDotDot (path.split q) = true) as Q.
  { destruct (string_dec (path.Clean u) "/") as [E|N].
    - rewrite (Hd E). now apply D.
    - now apply Hq. }
  destruct (Join_under (path h) q Q) as (kept & -> & K & G).
  unfold underRoot.
  rewrite <- (rev_involutive (path.elems (path h) ++ kept)).
  rewrite (rooted_render _ _ G), (elems_render _ _ G), rev_involutive.
  rewrite underElems_app, K. now destruct (path.rooted (path h)).
Qed.

(** The request path [/] is resolved to the default file, joined to the
    root. *)
Lemma root_request_default_file (h : httpHandler) :
  resolve h "/" = path.Join [ path h; "./" +:+ defaultFile h ].
Proof. reflexivity. Qed.

(** For every handler, the empty request path is resolved to the root
    joined with two dots. *)
Lemma empty_request_parent (h : httpHandler) :
  resolve h "" = path.Join [ path h; ".." ].
Proof. reflexivity. Qed.

(** C2 at the request path that breaks it: for an empty path [Clean]
    gives a dot, the relative path becomes two dots, and the file read
    is the parent of the root.  Traversal segments in a path that begins
    with a slash stay under the root, and the path [/] gives the default
    file. *)
Theorem empty_path_leaves_root :
  resolve siteHandler "" = "/srv" /\
  underRoot (path siteHandler) (resolve siteHandler "") = false /\
  reads (ServeHTTP siteHandler (fun _ => Failure "is a directory")
           {| Method := "GET"; URLPath := "" |}) = [ "/srv" ] /\
  resolve siteHandler "/../../etc/passwd" = "/srv/http/etc/passwd" /\
  resolve siteHandler "/" = "/srv/http/index.html".
Proof. repeat split. Qed.

(** ** From the arguments to the listening socket *)

Lemma startup_started (env : Env) (conf : Config) :
  starts env conf -> startup env initial = (Ok conf, started env conf).
Proof.
  intros (A & (bytes & R & U) & Both & O & L). unfold startup.
  apply Nat.ltb_lt in A. rewrite Nat.leb_antisym, A. cbn [negb when].
  unfold readFile. run. cbn [emit initial]. rewrite R. run. rewrite U. run.
  unfold setConfReady, setServer, getServer, setLogger, setOutput, logit,
    emit, started, startedServer, startedTrace, logging, readSize.
  cbn [server confReady logger logOutput trace].
  rewrite Both, L.
  destruct (LogStdout conf), (String.eqb (LogFile conf) "") eqn:F;
    try discriminate; cbn [negb andb orb when];
    try rewrite O by (now apply String.eqb_neq);
    destruct (MaxRead conf =? 0)%Z; reflexivity.
Qed.

(** Either the system grants what [main] needs, or [main] panics before
    the socket is open. *)
Lemma startup_cases (env : Env) :
  (exists conf, starts env conf) \/
  (exists m w,
     startup env initial = (Panic m, w) /\
     forallb notOpened (trace w) = true /\
     forallb notServe (trace w) = true).
Proof.
  unfold starts.
  destruct (length (Args env) <=? 1)%nat eqn:A.
  { right. unfold startup. rewrite A. now eexists _, _. }
  unfold startup. rewrite A.
  apply Nat.leb_gt in A.
  unfold readFile, setConfReady, setServer, getServer, setLogger, setOutput,
    logit, emit.
  run. cbn [server confReady logger logOutput trace initial].
  destruct (ReadFile env (nth 1 (Args env) "")) as [bytes|err] eqn:R;
    [|right; now eexists _, _].
  destruct (Unmarshal env bytes) as [conf|err] eqn:U;
    [|right; now eexists _, _].
  destruct (LogStdout conf) eqn:S, (String.eqb (LogFile conf) "") eqn:F;
    cbn [negb andb orb when];
    try (right; now eexists _, _).
  - destruct (Listen env (Address conf)) as [[]|err] eqn:L.
    + left. exists conf. rewrite S, F.
      split; [exact A|]. split; [now exists bytes|].
      split; [reflexivity|]. split; [|exact L].
      intros N. apply String.eqb_eq in F. contradiction.
    + right. destruct (MaxRead conf =? 0)%Z; now eexists _, _.
  - destruct (Listen env (Address conf)) as [[]|err] eqn:L.
    + left. exists conf. rewrite S, F.
      split; [exact A|]. split; [now exists bytes|].
      split; [reflexivity|]. split; [|exact L].
      intros N. apply String.eqb_eq in F. contradiction.
    + right. destruct (MaxRead conf =? 0)%Z; now eexists _, _.
  - destruct (OpenFile env (LogFile conf)) as [[]|err] eqn:O;
      [|right; now eexists _, _].
    destruct (Listen env (Address conf)) as [[]|err] eqn:L.
    + left. exists conf. rewrite S, F.
      split; [exact A|]. split; [now exists bytes|].
      split; [reflexivity|]. split; [now intros _ | exact L].
    + right. destruct (MaxRead conf =? 0)%Z; now eexists _, _.
Qed.

(** ** What is logged *)

Lemma tidy_same {A : Type} (m : M A) :
  (forall w, snd (m w) = w) -> tidy m.
Proof.
  intros H w. rewrite H. repeat split. exists []. now rewrite app_nil_r.
Qed.

Lemma tidy_bind {A B : Type} (m : M A) (f : A -> M B) :
  tidy m -> (forall a, tidy (f a)) -> tidy (m ≫= f).
Proof.
  intros Hm Hf w. unfold mbind, M_bind.
  destruct (Hm w) as (C & L & O & extra & T & Q).
  destruct (m w) as [[a|v] w1]; cbn [snd] in *.
  - destruct (Hf a w1) as (C1 & L1 & O1 & extra1 & T1 & Q1).
    repeat split; [congruence | congruence | congruence |].
    exists (extra ++ extra1). rewrite T1, T, app_assoc. split; [reflexivity|].
    intros Lw Cw. rewrite forallb_app, (Q Lw Cw), Q1; [reflexivity| |];
      congruence.
  - repeat split; try assumption. now exists extra.
Qed.

Lemma tidy_emit (e : Event) : notLog e = true -> tidy (emit e).
Proof.
  intros Q w. repeat split. exists [ e ]. cbn. now rewrite Q.
Qed.

Lemma tidy_logit (format : string) (msg : list logArg) :
  tidy (logit format msg).
Proof.
  intros w. unfold logit.
  destruct (logger w || negb (confReady w)) eqn:E.
  - repeat split. exists [ EvLog format msg ]. split; [reflexivity|].
    intros Lw Cw. now rewrite Lw, Cw in E.
  - repeat split. exists []. now rewrite app_nil_r.
Qed.

Lemma tidy_when (b : bool) (m : M unit) : tidy m -> tidy (when b m).
Proof. destruct b; [trivial | intros _; now apply tidy_same]. Qed.

Lemma tidy_need {A : Type} (o : option A) (message : string) :
  tidy (need o message).
Proof. destruct o; now apply tidy_same. Qed.

Lemma tidy_stringOr (message : string) (x : dyn) :
  tidy (stringOr message x).
Proof. destruct x; now apply tidy_same. Qed.

Lemma tidy_forEach {A B : Type} (f : A -> M B) (xs : list A) :
  (forall x, tidy (f x)) -> tidy (forEach f xs).
Proof.
  intros Hf. induction xs as [|x xs IH]; cbn [forEach].
  - now apply tidy_same.
  - apply tidy_bind; [apply Hf|]. intros y.
    apply tidy_bind; [apply IH|]. intros ys. now apply tidy_same.
Qed.

Lemma tidy_setServer (s : serve2.Server) : tidy (setServer s).
Proof.
  intros w. repeat split. exists []. cbn. now rewrite app_nil_r.
Qed.

Ltac tidy_step :=
  first
    [ apply tidy_same; reflexivity
    | apply tidy_logit | apply tidy_need | apply tidy_stringOr
    | apply tidy_setServer
    | apply tidy_emit; reflexivity
    | apply tidy_when
    | apply tidy_forEach; intros ?
    | apply tidy_bind; [|intros ?]
    | match goal with
      | |- tidy (match ?x with _ => _ end) => destruct x
      | |- tidy (let '(_, _) := ?x in _) => destruct x
      end ].

Lemma tidy_buildHandler (env : Env) (v : Protocol) :
  tidy (buildHandler env v).
Proof.
  unfold buildHandler.
  repeat match goal with
         | |- tidy (if ?b then _ else _) => destruct b
         end;
    unfold buildProxy, buildTLS, buildTLSMatcher, buildHTTP, readFile;
    repeat tidy_step.
Qed.

Lemma tidy_configure (env : Env) (ps : list Protocol) :
  tidy (configure env ps).
Proof.
  induction ps as [|v ps IH]; cbn [configure].
  - now apply tidy_same.
  - apply tidy_bind; [apply tidy_buildHandler|]. intros h.
    apply tidy_bind; [|intros _; exact IH].
    unfold register. repeat tidy_step.
Qed.

(** ** The loop over the protocols *)

Lemma allBuilt_Forall2 (env : Env) (ps : list Protocol)
    (hs : list proto.ProtocolHandler) :
  allBuilt env ps = Some hs <->
  Forall2 (fun v h => handlerOf env v = Ok h) ps hs.
Proof.
  revert hs. induction ps as [|v ps IH]; intros hs; cbn.
  - split.
    + intros [= <-]. constructor.
    + intros F. now inversion F.
  - destruct (handlerOf env v) as [h|m] eqn:E.
    + destruct (allBuilt env ps) as [hs'|]; cbn.
      * split.
        -- intros [= <-]. constructor; [exact E | now apply IH].
        -- intros F. inversion F as [|? h' ? hs'' E' F']; subst.
           apply IH in F'. congruence.
      * split; [discriminate|].
        intros F. inversion F as [|? h' ? hs'' E' F']; subst.
        apply IH in F'. discriminate.
    + split; [discriminate|].
      intros F. inversion F; congruence.
Qed.

Lemma allBuilt_None (env : Env) (ps : list Protocol) :
  allBuilt env ps = None ->
  Exists (fun v => exists m, handlerOf env v = Panic m) ps.
Proof.
  induction ps as [|v ps IH]; cbn; [discriminate|].
  destruct (handlerOf env v) as [h|m] eqn:E.
  - destruct (allBuilt env ps); [discriminate|]. intros _.
    apply Exists_cons_tl. now apply IH.
  - intros _. apply Exists_cons_hd. now exists m.
Qed.

Lemma configure_all_Ok (env : Env) (ps : list Protocol)
    (hs : list proto.ProtocolHandler) (w : World) :
  Forall2 (fun v h => handlerOf env v = Ok h) ps hs ->
  exists w',
    configure env ps w = (Ok tt, w') /\
    server w' = registerAll (server w) ps hs /\
    exists extra, trace w' = trace w ++ extra /\ forallb quiet extra = true.
Proof.
  intros F. revert w. induction F as [|v h ps hs Hh F IH]; intros w.
  - exists w. repeat split. exists []. now rewrite app_nil_r.
  - destruct (configure_cons_Ok env v ps h w Hh)
      as (w1 & E & Sv & extra & T & Q).
    destruct (IH w1) as (w' & C & Sw & extra1 & T1 & Q1).
    exists w'. rewrite E. split; [exact C|]. split.
    + cbn [registerAll]. now rewrite Sw, Sv.
    + exists (extra ++ extra1). rewrite T1, T, app_assoc.
      split; [reflexivity|]. rewrite forallb_app. now rewrite Q, Q1.
Qed.

Lemma registerAll_fields (s : serve2.Server) (ps : list Protocol)
    (hs : list proto.ProtocolHandler) :
  serve2.BytesToCheck (registerAll s ps hs) = serve2.BytesToCheck s /\
  serve2.Logger (registerAll s ps hs) = serve2.Logger s /\
  serve2.handlers (registerAll s ps hs)
    = serve2.handlers s ++ detectors ps hs.
Proof.
  revert s hs. induction ps as [|v ps IH]; intros s hs; cbn.
  - now rewrite app_nil_r.
  - destruct hs as [|h hs]; [now rewrite app_nil_r|].
    destruct (IH (registerIn s v h) hs) as (B & L & H).
    rewrite B, L, H. unfold registerIn.
    destruct (AsDefault v); cbn; repeat split.
    now rewrite <- app_assoc.
Qed.

(** ** The whole run of [main] *)

Lemma quiet_forallb (extra : list Event) :
  forallb quiet extra = true ->
  forallb notOpened extra = true /\ forallb notServe extra = true.
Proof.
  rewrite !forallb_forall. intros Q.
  split; intros e He; specialize (Q e He); destruct e as [| | | ? []| |];
    (reflexivity || discriminate).
Qed.

Lemma logit_run (format : string) (msg : list logArg) (w : World) :
  exists w' extra,
    logit format msg w = (Ok tt, w') /\
    server w' = server w /\
    trace w' = trace w ++ extra /\ forallb quiet extra = true.
Proof.
  unfold logit. destruct (logger w || negb (confReady w)).
  - eexists _, [ EvLog format msg ]. repeat split.
  - exists w, []. repeat split. now rewrite app_nil_r.
Qed.

Lemma startedTrace_notServe (env : Env) (conf : Config) :
  forallb notServe (startedTrace env conf) = true.
Proof.
  unfold startedTrace.
  now destruct (String.eqb (LogFile conf) ""), (logging conf).
Qed.

(** The two ways [main] can go: it gets past [net.Listen] and then
    serves or panics in the factory, or it panics before the socket is
    open. *)
Lemma main_run (env : Env) :
  (exists conf,
     starts env conf /\
     exists rest,
       trace (main env) = startedTrace env conf ++ rest /\
       forallb notOpened rest = true /\
       match allBuilt env (Protocols conf) with
       | Some hs =>
           mainBody env initial = (Ok tt, main env) /\
           server (main env)
             = registerAll (startedServer conf) (Protocols conf) hs /\
           exists extra,
             rest = extra ++ [ EvServe (Address conf) ] /\
             forallb quiet extra = true
       | None =>
           forallb notServe rest = true /\
           exists m w, mainBody env initial = (Panic m, w)
       end) \/
  (exists m w,
     startup env initial = (Panic m, w) /\
     forallb notOpened (trace (main env)) = true /\
     forallb notServe (trace (main env)) = true).
Proof.
  destruct (startup_cases env) as [(conf & St) | (m & w & E & NO & NS)].
  - left. exists conf. split; [exact St|].
    pose proof (startup_started env conf St) as E.
    destruct (allBuilt env (Protocols conf)) as [hs|] eqn:B.
    + apply allBuilt_Forall2 in B.
      destruct (configure_all_Ok env (Protocols conf) hs (started env conf) B)
        as (w2 & C & Sw & extra & T & Q).
      assert (exists w3 extra3,
                mainBody env initial
                  = (Ok tt,
                     {| server := server w3; confReady := confReady w3;
                        logger := logger w3; logOutput := logOutput w3;
                        trace := trace w3 ++ [ EvServe (Address conf) ] |}) /\
                server w3 = server w2 /\
                trace w3 = trace w2 ++ extra3 /\
                forallb quiet extra3 = true) as (w3 & extra3 & M & S3 & T3 & Q3).
      { unfold mainBody. rewrite (bind_Ok _ _ _ _ _ E), (bind_Ok _ _ _ _ _ C).
        unfold getServer. run.
        destruct (serve2.DefaultProtocol (server w2)) as [h|].
        - destruct (logit_run "Default protocol set to: %v" [ LHandler h ] w2)
            as (w3 & extra3 & -> & S3 & T3 & Q3).
          now exists w3, extra3.
        - exists w2, []. repeat split. now rewrite app_nil_r. }
      exists ((extra ++ extra3) ++ [ EvServe (Address conf) ]).
      assert (main env =
              {| server := server w3; confReady := confReady w3;
                 logger := logger w3; logOutput := logOutput w3;
                 trace := trace w3 ++ [ EvServe (Address conf) ] |}) as Hm
        by (unfold main; now rewrite M).
      assert (forallb quiet (extra ++ extra3) = true) as Q13
        by (rewrite forallb_app; now rewrite Q, Q3).
      split.
      { rewrite Hm. cbn [trace]. rewrite T3, T. cbn [trace started].
        now rewrite !app_assoc. }
      split.
      { rewrite forallb_app. rewrite (proj1 (quiet_forallb _ Q13)).
        reflexivity. }
      split; [rewrite Hm; exact M|].
      split; [rewrite Hm; cbn [server]; now rewrite S3, Sw|].
      now exists (extra ++ extra3).
    + apply allBuilt_None in B.
      destruct (configure_fails env (Protocols conf) (started env conf) B)
        as (m & w2 & C & extra & T & Q).
      assert (mainBody env initial = (Panic m, w2)) as M.
      { unfold mainBody. rewrite (bind_Ok _ _ _ _ _ E).
        now rewrite (bind_Panic _ _ _ _ _ C). }
      destruct (logit_run "Panicked: %s" [ LStr m ] w2)
        as (w3 & extra3 & L & _ & T3 & Q3).
      assert (forallb quiet (extra ++ extra3) = true) as Q13
        by (rewrite forallb_app; now rewrite Q, Q3).
      exists (extra ++ extra3). unfold main. rewrite M, L. cbn [snd].
      rewrite T3, T. cbn [trace started].
      split; [now rewrite app_assoc|].
      split; [apply (quiet_forallb _ Q13)|].
      split; [apply (quiet_forallb _ Q13) | now exists m, w2].
  - right. exists m, w. split; [exact E|].
    assert (mainBody env initial = (Panic m, w)) as M.
    { unfold mainBody. now rewrite (bind_Panic _ _ _ _ _ E). }
    destruct (logit_run "Panicked: %s" [ LStr m ] w)
      as (w3 & extra3 & L & _ & T3 & Q3).
    unfold main. rewrite M, L. cbn [snd]. rewrite T3, !forallb_app, NO, NS.
    now rewrite (proj1 (quiet_forallb _ Q3)), (proj2 (quiet_forallb _ Q3)).
Qed.

Lemma starts_unique (env : Env) (conf conf' : Config) :
  starts env conf -> starts env conf' -> conf = conf'.
Proof.
  intros (_ & (b & R & U) & _) (_ & (b' & R' & U') & _). congruence.
Qed.

Lemma starts_sample (conf : Config) :
  LogStdout conf && negb (String.eqb (LogFile conf) "") = false ->
  starts (envOf conf) conf.
Proof.
  intros Both. split; [cbn; lia|]. split; [now eexists|].
  split; [exact Both|]. now split.
Qed.

(** X1: the listening socket is opened exactly when there is a
    configuration path, the file is read and decoded, the two logging
    destinations are not both asked for, the log file (if any) can be
    opened, and [net.Listen] succeeds. *)
Theorem socket_opened_iff_started (env : Env) :
  listenerOpened (main env) <-> exists conf, starts env conf.
Proof.
  destruct (main_run env)
    as [(conf & St & rest & T & _) | (m & w & E & NO & _)].
  - split; [now exists conf|]. intros _. exists (Address conf).
    rewrite T. apply in_or_app. left. unfold startedTrace.
    apply in_or_app. right. apply in_or_app. right.
    apply in_or_app. right. now left.
  - split.
    + intros [a Ha]. rewrite forallb_forall in NO.
      now specialize (NO _ Ha).
    + intros [conf St]. rewrite (startup_started env conf St) in E.
      discriminate.
Qed.

(** X2: [Serve] is called exactly when [main] gets past [net.Listen] and
    the factory builds every protocol of the configuration. *)
Theorem serves_iff_all_built (env : Env) :
  served (main env) <->
  exists conf hs,
    starts env conf /\
    Forall2 (fun v h => handlerOf env v = Ok h) (Protocols conf) hs.
Proof.
  destruct (main_run env)
    as [(conf & St & rest & T & _ & H) | (m & w & E & _ & NS)].
  - destruct (allBuilt env (Protocols conf)) as [hs|] eqn:B.
    + destruct H as (_ & _ & extra & -> & _). split.
      * intros _. exists conf, hs. split; [exact St|].
        now apply allBuilt_Forall2.
      * intros _. exists (Address conf). rewrite T.
        apply in_or_app. right. apply in_or_app. right. now left.
    + destruct H as (NS & _). split.
      * intros [a Ha]. rewrite T in Ha. apply in_app_or in Ha as [Ha|Ha].
        -- pose proof (startedTrace_notServe env conf) as N.
           rewrite forallb_forall in N. now specialize (N _ Ha).
        -- rewrite forallb_forall in NS. now specialize (NS _ Ha).
      * intros (conf' & hs & St' & F).
        rewrite (starts_unique env conf' conf St' St) in F.
        apply allBuilt_Forall2 in F. congruence.
  - split.
    + intros [a Ha]. rewrite forallb_forall in NS.
      now specialize (NS _ Ha).
    + intros (conf & hs & St & _).
      rewrite (startup_started env conf St) in E. discriminate.
Qed.

(** X3: when everything is built, [Serve] is the last call [main] makes
    and the only one of its kind, on the address that was listened on;
    between [net.Listen] and [Serve] there are only file reads, key pair
    loads and log lines. *)
Theorem serve_is_last_call (env : Env) (conf : Config)
    (hs : list proto.ProtocolHandler) :
  starts env conf ->
  Forall2 (fun v h => handlerOf env v = Ok h) (Protocols conf) hs ->
  exists extra,
    trace (main env)
      = startedTrace env conf ++ extra ++ [ EvServe (Address conf) ] /\
    forallb quiet extra = true /\
    serve2.handlers (server (main env)) = detectors (Protocols conf) hs.
Proof.
  intros St F.
  destruct (main_run env)
    as [(conf' & St' & rest & T & _ & H) | (m & w & E & _)].
  - rewrite <- (starts_unique env conf conf' St St') in *.
    apply allBuilt_Forall2 in F. rewrite F in H.
    destruct H as (_ & Sv & extra & -> & Q).
    exists extra. split; [exact T|]. split; [exact Q|].
    rewrite Sv. now rewrite (proj2 (proj2 (registerAll_fields _ _ _))).
  - rewrite (startup_started env conf St) in E. discriminate.
Qed.

Lemma serve_is_last_call_witness :
  exists extra,
    trace (main (envOf (configOf twoDefaults)))
      = startedTrace (envOf (configOf twoDefaults)) (configOf twoDefaults)
        ++ extra ++ [ EvServe ":80" ] /\
    forallb quiet extra = true /\
    serve2.handlers (server (main (envOf (configOf twoDefaults))))
      = detectors twoDefaults
          [ proto.NewEcho;
            proto.NewMultiProxy [ bytesOf "SS"; bytesOf "SSH" ] "tcp"
              "localhost:22";
            proto.NewDiscard;
            proto.NewHTTP siteHandler ].
Proof.
  apply (serve_is_last_call (envOf (configOf twoDefaults))
           (configOf twoDefaults)).
  - now apply starts_sample.
  - repeat constructor.
Defined.

(** X4: the server that serves has the read size of the configuration,
    the library's default when [maxRead] is zero and the given number
    otherwise, whatever its sign; its logger is set exactly when logging
    is asked for. *)
Theorem server_at_serve (env : Env) (conf : Config) (w : World) :
  starts env conf ->
  mainBody env initial = (Ok tt, w) ->
  serve2.BytesToCheck (server w)
    = (if (MaxRead conf =? 0)%Z then 128%Z else MaxRead conf) /\
  serve2.Logger (server w)
    = (LogStdout conf || negb (String.eqb (LogFile conf) "")).
Proof.
  intros St M.
  destruct (main_run env)
    as [(conf' & St' & rest & T & _ & H) | (m & w' & E & _)].
  - rewrite <- (starts_unique env conf conf' St St') in *.
    destruct (allBuilt env (Protocols conf)) as [hs|].
    + destruct H as (M' & Sv & _). rewrite M in M'. injection M' as ->.
      rewrite Sv.
      destruct (registerAll_fields (startedServer conf) (Protocols conf) hs)
        as (-> & -> & _).
      split; reflexivity.
    + destruct H as (_ & m & w' & M'). congruence.
  - rewrite (startup_started env conf St) in E. discriminate.
Qed.

Lemma server_at_serve_witness :
  serve2.BytesToCheck (server (main (envOf (quietConfig [ sshProxy ]))))
    = 16%Z /\
  serve2.Logger (server (main (envOf (quietConfig [ sshProxy ])))) = false.
Proof.
  apply (server_at_serve (envOf (quietConfig [ sshProxy ]))
           (quietConfig [ sshProxy ])).
  - now apply starts_sample.
  - reflexivity.
Defined.

Lemma startedTrace_notLog (env : Env) (conf : Config) :
  logging conf = false -> forallb notLog (startedTrace env conf) = true.
Proof.
  intros L. unfold startedTrace. rewrite L.
  now destruct (String.eqb (LogFile conf) "").
Qed.

(** X5: when the configuration asks for no logging, nothing at all is
    logged once the configuration is read: not the progress lines, not a
    failure of the factory, not the panic that ends the process. *)
Theorem nothing_logged_without_logging (env : Env) (conf : Config) :
  starts env conf ->
  LogStdout conf = false ->
  LogFile conf = "" ->
  forallb notLog (trace (main env)) = true.
Proof.
  intros St S F.
  assert (logging conf = false) as L by (unfold logging; now rewrite S, F).
  pose proof (startup_started env conf St) as E.
  unfold main, mainBody. rewrite (bind_Ok _ _ _ _ _ E).
  match goal with
  | |- context [ ?m (started env conf) ] =>
      assert (tidy m) as Tm by
        (apply tidy_bind; [apply tidy_configure|]; intros _;
         unfold getServer; repeat tidy_step)
  end.
  destruct (Tm (started env conf)) as (C & Lg & _ & extra & T & Q).
  match goal with
  | |- context [ ?m (started env conf) ] =>
      destruct (m (started env conf)) as [[[]|v] w]
  end; cbn [snd] in *.
  - rewrite T, forallb_app. cbn [trace started].
    rewrite (startedTrace_notLog env conf L). now apply Q.
  - destruct (tidy_logit "Panicked: %s" [ LStr v ] w)
      as (_ & _ & _ & extra' & T' & Q').
    rewrite T', T, !forallb_app. cbn [trace started].
    rewrite (startedTrace_notLog env conf L), (Q L eq_refl).
    apply Q'; [rewrite Lg; exact L | rewrite C; reflexivity].
Qed.

Lemma nothing_logged_without_logging_witness :
  fst (mainBody (envOf (quietConfig [ gopher ])) initial)
    = Panic "Unknown kind: gopher" /\
  forallb notLog (trace (main (envOf (quietConfig [ gopher ])))) = true.
Proof.
  split; [reflexivity|].
  apply (nothing_logged_without_logging (envOf (quietConfig [ gopher ]))
           (quietConfig [ gopher ])).
  - now apply starts_sample.
  - reflexivity.
  - reflexivity.
Defined.

(** X6: asking for both logging destinations ends the process right
    after the configuration is decoded: the log file is not opened, the
    socket is not opened, and the panic itself is not logged, since no
    logger is set yet. *)
Theorem logging_conflict_is_silent (env : Env) (conf : Config)
    (bytes : string) :
  (1 < length (Args env))%nat ->
  ReadFile env (nth 1 (Args env) "") = Success bytes ->
  Unmarshal env bytes = Success conf ->
  LogStdout conf = true ->
  LogFile conf <> "" ->
  fst (mainBody env initial)
    = Panic "Unable to both log to stdout and to logfile" /\
  trace (main env) = [ EvReadFile (nth 1 (Args env) "") ].
Proof.
  intros A R U S F. apply String.eqb_neq in F.
  assert (startup env initial
          = (Panic "Unable to both log to stdout and to logfile",
             {| server := serve2.New; confReady := true; logger := false;
                logOutput := None;
                trace := [ EvReadFile (nth 1 (Args env) "") ] |})) as E.
  { unfold startup. apply Nat.ltb_lt in A. rewrite Nat.leb_antisym, A.
    unfold readFile, setConfReady, setServer, emit. run.
    cbn [server confReady logger logOutput trace initial].
    rewrite R. run. rewrite U. run. now rewrite S, F. }
  unfold main, mainBody. rewrite (bind_Panic _ _ _ _ _ E). now split.
Qed.

Lemma logging_conflict_is_silent_witness :
  fst (mainBody (envOf bothLogsConfig) initial)
    = Panic "Unable to both log to stdout and to logfile" /\
  trace (main (envOf bothLogsConfig)) = [ EvReadFile "conf.json" ].
Proof.
  apply (logging_conflict_is_silent (envOf bothLogsConfig) bothLogsConfig
           "contents of conf.json"); try reflexivity.
  - cbn. lia.
  - discriminate.
Defined.

(** X7: a failure before the configuration is decoded is always
    reported, whatever the configuration would have said: a missing
    argument by the panic line alone, an unreadable or undecodable file
    by a line of its own and then the panic line. *)
Theorem early_failure_is_logged (env : Env) :
  ((length (Args env) <= 1)%nat ->
   trace (main env)
     = [ EvLog "Panicked: %s" [ LStr "Missing configuration path" ] ]) /\
  (forall err,
     (1 < length (Args env))%nat ->
     ReadFile env (nth 1 (Args env) "") = Failure err ->
     trace (main env)
       = [ EvReadFile (nth 1 (Args env) "");
           EvLog "Reading configuration failed" [];
           EvLog "Panicked: %s" [ LStr err ] ]) /\
  (forall bytes err,
     (1 < length (Args env))%nat ->
     ReadFile env (nth 1 (Args env) "") = Success bytes ->
     Unmarshal env bytes = Failure err ->
     trace (main env)
       = [ EvReadFile (nth 1 (Args env) "");
           EvLog "Parsing configuration failed" [];
           EvLog "Panicked: %s" [ LStr err ] ]).
Proof.
  split; [|split].
  - intros A. apply Nat.leb_le in A.
    unfold main, mainBody, startup. rewrite A. reflexivity.
  - intros err A R. apply Nat.ltb_lt in A.
    unfold main, mainBody, startup. rewrite Nat.leb_antisym, A.
    unfold readFile, emit, logit. run.
    cbn [server confReady logger logOutput trace initial].
    rewrite R. reflexivity.
  - intros bytes err A R U. apply Nat.ltb_lt in A.
    unfold main, mainBody, startup. rewrite Nat.leb_antisym, A.
    unfold readFile, emit, logit. run.
    cbn [server confReady logger logOutput trace initial].
    rewrite R. run. rewrite U. reflexivity.
Qed.

Lemma early_failure_is_logged_witness :
  trace (main noFilesEnv)
    = [ EvReadFile "conf.json";
        EvLog "Reading configuration failed" [];
        EvLog "Panicked: %s" [ LStr "no such file or directory" ] ].
Proof.
  apply (early_failure_is_logged noFilesEnv); [cbn; lia | reflexivity].
Defined.

(** ** More on the loop and on the factory *)


Lemma configure_app_ok (env : Env) (ps qs : list Protocol) (w w1 : World) :
  configure env ps w = (Ok tt, w1) ->
  configure env (ps ++ qs) w = configure env qs w1.
Proof.
  revert w. induction ps as [|v ps IH]; intros w.
  - now intros [= ->].
  - cbn [app configure]. unfold mbind, M_bind in *.
    destruct (buildHandler env v w) as [[h|m] w0]; [|discriminate].
    destruct (register v h w0) as [[[]|m] w2]; [apply IH | discriminate].
Qed.

(** X9: the first protocol the factory refuses decides how the loop
    ends: the panic is its panic, the protocols declared after it are
    not looked at, and the handlers built before it have been
    registered. *)
Theorem first_failure_decides (env : Env) (before after : list Protocol)
    (v : Protocol) (hs : list proto.ProtocolHandler) (m : string)
    (w : World) :
  Forall2 (fun v h => handlerOf env v = Ok h) before hs ->
  handlerOf env v = Panic m ->
  exists w',
    configure env (before ++ v :: after) w = (Panic m, w') /\
    configure env (before ++ [ v ]) w = (Panic m, w') /\
    server w' = registerAll (server w) before hs.
Proof.
  intros F P.
  destruct (configure_all_Ok env before hs w F) as (w1 & C & Sv & _).
  destruct (buildHandler_handlerOf env v w1) as (w' & B & Sw & _).
  rewrite P in B. exists w'.
  rewrite !(configure_app_ok env before _ w w1 C). cbn [configure].
  rewrite !(bind_Panic _ _ _ _ _ B). repeat split. congruence.
Qed.

Lemma first_failure_decides_witness :
  exists w',
    configure sampleEnv ([ echoDefault; sshProxy ] ++ gopher :: [ httpBoth ])
      initial = (Panic "Unknown kind: gopher", w') /\
    configure sampleEnv ([ echoDefault; sshProxy ] ++ [ gopher ]) initial
      = (Panic "Unknown kind: gopher", w') /\
    server w'
      = registerAll (server initial) [ echoDefault; sshProxy ]
          [ proto.NewEcho;
            proto.NewMultiProxy [ bytesOf "SS"; bytesOf "SSH" ] "tcp"
              "localhost:22" ].
Proof.
  apply (first_failure_decides sampleEnv [ echoDefault; sshProxy ]
           [ httpBoth ] gopher).
  - repeat constructor.
  - reflexivity.
Defined.

(** X10: building a handler is a matter of the protocol and the system
    alone.  Its result is the same in every world; it leaves the server
    and the logging setup as they are; it neither listens nor serves. *)
Theorem factory_frame (env : Env) (v : Protocol) (w w0 : World) :
  fst (buildHandler env v w) = fst (buildHandler env v w0) /\
  server (snd (buildHandler env v w)) = server w /\
  confReady (snd (buildHandler env v w)) = confReady w /\
  logger (snd (buildHandler env v w)) = logger w /\
  logOutput (snd (buildHandler env v w)) = logOutput w /\
  exists extra,
    trace (snd (buildHandler env v w)) = trace w ++ extra /\
    forallb quiet extra = true.
Proof.
  destruct (steady_buildHandler env v w) as (R & S & T).
  destruct (steady_buildHandler env v w0) as (R0 & _).
  destruct (tidy_buildHandler env v w) as (C & L & O & _).
  repeat split; try assumption. congruence.
Qed.

(** X11: the proxy case of the factory makes no call and changes
    nothing.  It builds a handler exactly when the magic is a string or
    a list of strings and the target is a string; a magic that is a
    string gives the proxy for its bytes; a magic that is neither is
    reported whatever the target is. *)
Theorem proxy_accepted_iff (env : Env) (v : Protocol) (w : World) :
  Kind v = "proxy" ->
  snd (buildHandler env v w) = w /\
  ((exists h, fst (buildHandler env v w) = Ok h) <->
   validProxy (Conf v) = true) /\
  (forall magic target,
     Conf v !! "magic" = Some (DStr magic) ->
     Conf v !! "target" = Some (DStr target) ->
     fst (buildHandler env v w)
       = Ok (proto.NewProxy (bytesOf magic) "tcp" target)) /\
  (asString (Conf v !! "magic") = None ->
   asSlice (Conf v !! "magic") = None ->
   fst (buildHandler env v w)
     = Panic "Proxy declaration is missing valid magic").
Proof.
  intros K. rewrite (buildHandler_proxy env v K).
  unfold buildProxy, validProxy.
  split; [|split; [|split]].
  - destruct (asString (Conf v !! "magic")) as [magic|],
             (asSlice (Conf v !! "magic")) as [l|],
             (asString (Conf v !! "target")) as [target|];
      run; unfold id; rewrite ?forEach_magics;
      try destruct (strings l); reflexivity.
  - destruct (asString (Conf v !! "magic")) as [magic|],
             (asSlice (Conf v !! "magic")) as [l|],
             (asString (Conf v !! "target")) as [target|];
      run; unfold id; rewrite ?forEach_magics;
      try destruct (strings l); cbn;
      (split; [intros [h [=]] || intros _; reflexivity
              |discriminate || (intros _; now eexists)]).
  - intros magic target -> ->. reflexivity.
  - intros -> ->. reflexivity.
Qed.

Lemma proxy_accepted_iff_witness :
  fst (buildHandler sampleEnv plainProxy initial)
    = Ok (proto.NewProxy (bytesOf "SSH") "tcp" "localhost:22") /\
  snd (buildHandler sampleEnv plainProxy initial) = initial /\
  fst (buildHandler sampleEnv
         {| Kind := "proxy"; AsDefault := false; Conf := confOf [] |}
         initial)
    = Panic "Proxy declaration is missing valid magic".
Proof.
  destruct (proxy_accepted_iff sampleEnv plainProxy initial eq_refl)
    as (Hw & _ & Hs & _).
  destruct (proxy_accepted_iff sampleEnv
              {| Kind := "proxy"; AsDefault := false; Conf := confOf [] |}
              initial eq_refl) as (_ & _ & _ & Hp).
  split; [exact (Hs "SSH" "localhost:22" eq_refl eq_refl)|].
  split; [exact Hw | exact (Hp eq_refl eq_refl)].
Defined.

Lemma asString_Some (x : option dyn) (s : string) :
  asString x = Some s <-> x = Some (DStr s).
Proof. destruct x as [[]|]; cbn; split; congruence. Qed.

Lemma buildHandler_tls (env : Env) (v : Protocol) :
  Kind v = "tls" -> buildHandler env v = buildTLS env (Conf v).
Proof. unfold buildHandler. now intros ->. Qed.

(** X12: the TLS case of the factory builds a handler exactly when
    [cert] and [key] are strings, [protos] is a list of strings (it may
    be empty, it may not be absent) and the key pair loads.  The key
    pair is loaded once, after the three options have been checked, and
    not at all when one of them is refused; a key pair that does not
    load is a panic with the error of the load. *)
Theorem tls_accepted_iff (env : Env) (v : Protocol) (w : World) :
  Kind v = "tls" ->
  ((exists h, fst (buildHandler env v w) = Ok h) <->
   validTLS env (Conf v) = true) /\
  (validTLSOptions (Conf v) = false -> snd (buildHandler env v w) = w) /\
  (forall h,
     fst (buildHandler env v w) = Ok h ->
     exists cert key protos,
       Conf v !! "cert" = Some (DStr cert) /\
       Conf v !! "key" = Some (DStr key) /\
       Conf v !! "protos" = Some (DList (map DStr protos)) /\
       h = proto.NewTLS protos cert key /\
       trace (snd (buildHandler env v w))
         = trace w ++ [ EvLoadKeyPair cert key ]) /\
  (forall cert key err,
     validTLSOptions (Conf v) = true ->
     Conf v !! "cert" = Some (DStr cert) ->
     Conf v !! "key" = Some (DStr key) ->
     LoadKeyPair env cert key = Failure err ->
     fst (buildHandler env v w) = Panic err).
Proof.
  intros K. rewrite (buildHandler_tls env v K).
  unfold buildTLS, validTLS, validTLSOptions.
  pose proof (asString_Some (Conf v !! "cert")) as Hc.
  pose proof (asString_Some (Conf v !! "key")) as Hk.
  pose proof (asSlice_Some (Conf v !! "protos")) as Hp.
  destruct (asString (Conf v !! "cert")) as [cert|];
    [|run; repeat split; try discriminate; try (now intros [h [=]]);
      intros ? ? ? _ E; apply Hc in E; discriminate].
  destruct (asString (Conf v !! "key")) as [key|];
    [|run; repeat split; try discriminate; try (now intros [h [=]]);
      intros ? ? ? _ _ E; apply Hk in E; discriminate].
  destruct (asSlice (Conf v !! "protos")) as [l|];
    [|run; repeat split; try discriminate; try (now intros [h [=]])].
  run. rewrite forEach_stringOr.
  destruct (strings l) as [protos|] eqn:Sl;
    [|run; repeat split; try discriminate; try (now intros [h [=]])].
  apply strings_Some in Sl. unfold emit, logit.
  cbn [logger confReady isSome andb].
  destruct (LoadKeyPair env cert key) as [[]|err] eqn:L.
  - split; [split; [reflexivity | now eexists]|].
    split; [discriminate|]. split.
    + intros h [= <-]. exists cert, key, protos.
      rewrite (proj1 (Hc cert) eq_refl), (proj1 (Hk key) eq_refl).
      rewrite (proj1 (Hp l) eq_refl), Sl. now repeat split.
    + intros cert' key' err' _ Ec Ek Lf.
      apply Hc in Ec. apply Hk in Ek. congruence.
  - cbn [logger confReady].
    destruct (logger w || negb (confReady w)); run; cbn [emit fst snd];
      (split; [split; [now intros [h [=]] | discriminate]|]);
      (split; [discriminate|]);
      (split; [intros h [=]|]);
      intros cert' key' err' _ Ec Ek Lf;
      apply Hc in Ec; apply Hk in Ek; cbn; congruence.
Qed.

Lemma tls_accepted_iff_witness :
  fst (buildHandler sampleEnv tlsProtocol initial)
    = Ok (proto.NewTLS [ "h2"; "http/1.1" ] "cert.pem" "key.pem") /\
  trace (snd (buildHandler sampleEnv tlsProtocol initial))
    = [ EvLoadKeyPair "cert.pem" "key.pem" ] /\
  snd (buildHandler sampleEnv
         {| Kind := "tls"; AsDefault := false;
            Conf := confOf [ ("cert", DStr "cert.pem");
                             ("key", DStr "key.pem") ] |} initial)
    = initial.
Proof.
  destruct (tls_accepted_iff sampleEnv tlsProtocol initial eq_refl)
    as (_ & _ & Hok & _).
  destruct (Hok _ eq_refl)
    as (cert & key & protos & Ec & Ek & Ep & Hh & Ht).
  injection Ec as <-. injection Ek as <-.
  split; [reflexivity|]. split; [exact Ht|].
  now apply (tls_accepted_iff sampleEnv
               {| Kind := "tls"; AsDefault := false;
                  Conf := confOf [ ("cert", DStr "cert.pem");
                                   ("key", DStr "key.pem") ] |} initial).
Defined.

(** X13: the matcher case of the factory makes no call and changes
    nothing.  It builds a matcher exactly when the target is a string
    and each of [serverNames] and [negotiatedProtocols], if it is a list,
    is a list of strings; the matcher is described by its target and
    holds the names in the order of the configuration. *)
Theorem tlsmatcher_accepted_iff (env : Env) (v : Protocol) (w : World) :
  Kind v = "tlsmatcher" ->
  snd (buildHandler env v w) = w /\
  ((exists h, fst (buildHandler env v w) = Ok h) <->
   validTLSMatcher (Conf v) = true) /\
  (forall h,
     fst (buildHandler env v w) = Ok h ->
     exists target t,
       h = proto.OfTLSMatcher t /\
       Conf v !! "target" = Some (DStr target) /\
       proto.Description t = "TLSMatcher [dest: " +:+ target +:+ "]" /\
       (forall sn, Conf v !! "serverNames" = Some (DList sn) ->
                   sn = map DStr (proto.ServerNames t)) /\
       (forall np, Conf v !! "negotiatedProtocols" = Some (DList np) ->
                   np = map DStr (proto.NegotiatedProtocols t)) /\
       (forall b, Conf v !! "negotiatedProtocolIsMutual" = Some (DBool b) ->
                  proto.NegotiatedProtocolIsMutual t = b)).
Proof.
  intros K. rewrite (buildHandler_tlsmatcher env v K).
  assert (exists r,
            buildTLSMatcher (Conf v) w = (r, w) /\
            ((exists h, r = Ok h) <-> validTLSMatcher (Conf v) = true) /\
            forall h, r = Ok h ->
              exists target t,
                h = proto.OfTLSMatcher t /\
                asString (Conf v !! "target") = Some target /\
                proto.Description t = "TLSMatcher [dest: " +:+ target +:+ "]")
    as (r & E & Hiff & Hd).
  { unfold buildTLSMatcher, validTLSMatcher, listOfStringsOrNoList.
    destruct (asString (Conf v !! "target")) as [target|]; run;
      [|eexists; split; [reflexivity|]; split;
        [split; [now intros [h [=]] | discriminate] | discriminate]].
    destruct (asSlice (Conf v !! "serverNames")) as [sn|]; run;
      rewrite ?forEach_stringOr;
      try (destruct (strings sn) as [names|]; run;
           [|eexists; split; [reflexivity|]; split;
             [split; [now intros [h [=]] | discriminate] | discriminate]]);
      (destruct (asSlice (Conf v !! "negotiatedProtocols")) as [np|]; run;
       rewrite ?forEach_stringOr;
       try (destruct (strings np) as [protos|]; run;
            [|eexists; split; [reflexivity|]; split;
              [split; [now intros [h [=]] | discriminate] | discriminate]]);
       destruct (asBool (Conf v !! "negotiatedProtocolIsMutual"));
       (eexists; split; [reflexivity|]; split;
        [split; [reflexivity | now eexists]|];
        intros h [= <-]; eexists _, _;
        split; [reflexivity|]; split; reflexivity)). }
  rewrite E. cbn [fst snd]. split; [reflexivity|]. split; [exact Hiff|].
  intros h ->. destruct (Hd h eq_refl) as (target & t & -> & Ht & Hdesc).
  apply buildTLSMatcher_Ok in E
    as (target' & t' & _ & [= <-] & _ & _ & Hsn & Hnp & Hm).
  exists target, t. split; [reflexivity|].
  split; [now apply asString_Some|]. split; [exact Hdesc|].
  split; [|split].
  - intros sn Es. apply Hsn. now apply asSlice_Some.
  - intros np En. apply Hnp. now apply asSlice_Some.
  - intros b Eb. apply Hm. now apply asBool_Some.
Qed.

Lemma tlsmatcher_accepted_iff_witness :
  exists t,
    fst (buildHandler sampleEnv matcherTLS initial)
      = Ok (proto.OfTLSMatcher t) /\
    proto.Description t = "TLSMatcher [dest: localhost:8443]" /\
    proto.ServerNames t = [ "a.example" ] /\
    snd (buildHandler sampleEnv matcherTLS initial) = initial.
Proof.
  destruct (tlsmatcher_accepted_iff sampleEnv matcherTLS initial eq_refl)
    as (Hw & _ & Hok).
  destruct (Hok _ eq_refl) as (target & t & Hh & Ht & Hd & Hsn & _).
  injection Ht as <-. exists t. split; [now rewrite <- Hh|].
  split; [exact Hd|]. split; [|exact Hw].
  specialize (Hsn _ eq_refl).
  destruct (proto.ServerNames t) as [|n [|n' ns]]; try discriminate.
  now injection Hsn as <-.
Defined.

(** X14: the file handler case of the factory builds a handler exactly
    when the two not-found options are not both present, every option
    that is present is a string (a [null] is present and is not), the
    not-found file can be read and the path is given.  A not-found
    message is taken as it is, without any read, and no file is read
    unless [notFoundFile] is given. *)
Theorem http_accepted_iff (env : Env) (v : Protocol) (w : World) :
  Kind v = "http" ->
  ((exists h, fst (buildHandler env v w) = Ok h) <->
   validHTTP env (Conf v) = true) /\
  (forall msg h,
     Conf v !! "notFoundMsg" = Some (DStr msg) ->
     fst (buildHandler env v w) = Ok h ->
     exists hh, h = proto.NewHTTP hh /\ notFoundMsg hh = msg) /\
  (Conf v !! "notFoundFile" = None -> snd (buildHandler env v w) = w).
Proof.
  intros K. rewrite (buildHandler_http env v K).
  unfold buildHTTP, validHTTP, readFile, emit, logit.
  destruct (Conf v !! "notFoundMsg") as [[]|],
           (Conf v !! "notFoundFile") as [f|],
           (Conf v !! "defaultFile") as [d|],
           (asString (Conf v !! "path")) as [p|];
    try destruct (asString (Some f)) as [name|];
    try destruct (asString (Some d)) as [df|];
    run; cbn [logger confReady];
    repeat match goal with
           | |- context [ ReadFile env ?name ] =>
               destruct (ReadFile env name); run; cbn [logger confReady]
           | |- context [ logger w || negb (confReady w) ] =>
               destruct (logger w || negb (confReady w)); run
           end;
    cbn;
    (split;
     [split;
      [intros [h H]; first [reflexivity | discriminate H]
      |intros H; first [discriminate H | eexists; reflexivity]]
     |split;
      [intros msg h E1 E2;
       first [discriminate E1 | discriminate E2
             | injection E1 as <-; injection E2 as <-;
               eexists; split; reflexivity]
      |intros E; first [reflexivity | discriminate E]]]).
Qed.

Lemma http_accepted_iff_witness :
  (exists hh,
     fst (buildHandler noFilesEnv httpMessage initial) = Ok (proto.NewHTTP hh)
     /\ notFoundMsg hh = "not here") /\
  snd (buildHandler noFilesEnv httpMessage initial) = initial /\
  ~ (exists h,
       fst (buildHandler sampleEnv
              {| Kind := "http"; AsDefault := false;
                 Conf := confOf [ ("path", DStr "/srv/http");
                                  ("notFoundMsg", DNil) ] |} initial)
       = Ok h).
Proof.
  destruct (http_accepted_iff noFilesEnv httpMessage initial eq_refl)
    as (_ & Hmsg & Hw).
  destruct (Hmsg "not here" _ eq_refl eq_refl) as (hh & Hh & Hm).
  split; [exists hh; split; [now rewrite <- Hh | exact Hm]|].
  split; [exact (Hw eq_refl)|].
  intros Hex.
  apply (http_accepted_iff sampleEnv
           {| Kind := "http"; AsDefault := false;
              Conf := confOf [ ("path", DStr "/srv/http");
                               ("notFoundMsg", DNil) ] |} initial eq_refl)
    in Hex.
  discriminate.
Defined.

(** ** More on the resolved path *)

Lemma render_not_empty (isRooted : bool) (stack : list string) :
  good isRooted stack ->
  String.eqb (path.render isRooted (rev stack)) "" = false.
Proof.
  intros G. destruct isRooted; [reflexivity|].
  apply good_startsPlain, Forall_rev in G. unfold path.render.
  destruct (rev stack) as [|e es]; [reflexivity|].
  inversion G as [|? ? He _]; subst.
  destruct e as [|c e]; [discriminate|]. now destruct es.
Qed.

(** Cleaning a cleaned path changes nothing. *)
Lemma Clean_idempotent (s : string) :
  path.Clean (path.Clean s) = path.Clean s.
Proof.
  destruct (String.eqb s "") eqn:E.
  { apply String.eqb_eq in E as ->. reflexivity. }
  pose proof (good_elems s) as G.
  unfold path.Clean at 2 3. rewrite E.
  rewrite <- (rev_involutive (path.elems s)).
  unfold path.Clean. rewrite (render_not_empty _ _ G).
  now rewrite (rooted_render _ _ G), (elems_render _ _ G).
Qed.

(** X15: the name [ServeHTTP] hands to [ioutil.ReadFile] is a cleaned
    path, and it depends on the request path through its cleaned form
    only: two request paths that clean to the same path read the same
    file. *)
Theorem resolve_canonical (h : httpHandler) (u u' : string) :
  path.Clean (resolve h u) = resolve h u /\
  (path.Clean u = path.Clean u' -> resolve h u = resolve h u') /\
  resolve h (path.Clean u) = resolve h u.
Proof.
  split; [|split].
  - unfold resolve, path.Join. cbn [List.filter].
    destruct (String.eqb ("." +:+ path.Clean u) "./");
      (destruct (String.eqb (path h) ""); cbn [negb];
       apply Clean_idempotent).
  - unfold resolve. now intros ->.
  - unfold resolve. now rewrite Clean_idempotent.
Qed.


(** X17: the default file is read for the rooted request paths whose
    elements all cancel out and for no other rooted path: a path with an
    element left, such as a directory with a trailing slash, is resolved
    to that element under the root, whatever the default file is. *)
Theorem default_file_exactly_at_root (h : httpHandler) (u : string) :
  path.rooted u = true ->
  (path.elems u = [] ->
   resolve h u = path.Join [ path h; "./" +:+ defaultFile h ]) /\
  (path.elems u <> [] ->
   resolve h u = path.Join [ path h; "./" +:+ path.join (path.elems u) ]).
Proof.
  intros R. unfold resolve.
  assert (String.eqb u "" = false) as NE by now destruct u.
  unfold path.Clean. rewrite NE, R. unfold path.render.
  pose proof (good_elems u) as G. rewrite R in G.
  apply good_rooted_real, Forall_rev in G. rewrite rev_involutive in G.
  destruct (path.elems u) as [|e es]; split; try congruence.
  - reflexivity.
  - intros _. inversion G as [|? ? He _]; subst.
    assert (String.eqb ("." +:+ String path.slash (path.join (e :: es))) "./"
            = false) as ->; [|reflexivity].
    apply String.eqb_neq. intros [= J].
    now apply (join_real_not_empty e es He).
Qed.

Lemma default_file_exactly_at_root_witness :
  resolve siteHandler "/a/../." = "/srv/http/index.html" /\
  resolve siteHandler "/docs/" = "/srv/http/docs".
Proof.
  destruct (default_file_exactly_at_root siteHandler "/a/../." eq_refl)
    as (H1 & _).
  destruct (default_file_exactly_at_root siteHandler "/docs/" eq_refl)
    as (_ & H2).
  split; [now rewrite (H1 eq_refl) | now rewrite H2].
Defined.

(** ** The earlier variants of the factory *)

(** X18: what the factory of the earlier variant builds, the factory of
    today builds as well: the same handler, after the same calls.  The
    protocols only today's factory builds are the file handlers, the
    matchers, and the proxies whose magic is a list. *)
Theorem earlier_factory_refined (env : Env) (v : Protocol) (w : World) :
  (forall h w',
     variant1.buildHandler env v w = (Ok h, w') ->
     buildHandler env v w = (Ok h, w')) /\
  (forall m w1 h w',
     variant1.buildHandler env v w = (Panic m, w1) ->
     buildHandler env v w = (Ok h, w') ->
     Kind v = "http" \/ Kind v = "tlsmatcher" \/
     (Kind v = "proxy" /\ exists l, Conf v !! "magic" = Some (DList l))).
Proof.
  unfold variant1.buildHandler, buildHandler.
  destruct (String.eqb (Kind v) "proxy") eqn:Kp.
  { apply String.eqb_eq in Kp.
    unfold variant1.buildProxy, buildProxy.
    pose proof (asSlice_Some (Conf v !! "magic")) as Hl.
    destruct (asString (Conf v !! "magic")) as [magic|],
             (asSlice (Conf v !! "magic")) as [l|],
             (asString (Conf v !! "target")) as [target|]; run;
      (split; [intros h w' [=]; subst; reflexivity || discriminate|]);
      intros m w1 h w' E1 E2; try discriminate;
      right; right; (split; [exact Kp|]); exists l; now apply Hl. }
  destruct (String.eqb (Kind v) "tls") eqn:Kt.
  { unfold variant1.buildTLS, buildTLS.
    destruct (asString (Conf v !! "cert")) as [cert|]; run;
      [|split; [intros ? ? [=] | intros ? ? ? ? _ [=]]].
    split; [now intros h w' E|]. intros m w1 h w' E1 E2. congruence. }
  destruct (String.eqb (Kind v) "tlsmatcher") eqn:Km.
  { apply String.eqb_eq in Km. rewrite Km. cbn.
    split; [intros ? ? [=] | auto]. }
  destruct (String.eqb (Kind v) "http") eqn:Kh.
  { apply String.eqb_eq in Kh. rewrite Kh. cbn.
    split; [intros ? ? [=] | auto]. }
  destruct (String.eqb (Kind v) "echo");
    [split; [now intros ? ? E | intros ? ? ? ? [=]]|].
  destruct (String.eqb (Kind v) "discard");
    [split; [now intros ? ? E | intros ? ? ? ? [=]]|].
  split; [intros ? ? [=] | intros ? ? ? ? _ [=]].
Qed.

Lemma earlier_factory_refined_witness :
  buildHandler sampleEnv plainProxy initial
    = (Ok (proto.NewProxy (bytesOf "SSH") "tcp" "localhost:22"), initial) /\
  fst (variant1.buildHandler sampleEnv sshProxy initial)
    = Panic "Proxy declaration is missing valid magic".
Proof.
  split; [|reflexivity].
  now apply (earlier_factory_refined sampleEnv plainProxy initial).
Defined.

(** X19: the factory of the oldest variant never builds a TLS handler.
    Whatever the options, it panics without loading a key pair: when
    [cert] and [key] are strings, on [protos], which it asserts to be a
    [[]string]. *)
Theorem oldest_factory_builds_no_tls (env : Env) (v : Protocol)
    (w : World) :
  Kind v = "tls" ->
  snd (variant0.buildHandler env v w) = w /\
  (exists m, fst (variant0.buildHandler env v w) = Panic m) /\
  (forall cert key,
     Conf v !! "cert" = Some (DStr cert) ->
     Conf v !! "key" = Some (DStr key) ->
     fst (variant0.buildHandler env v w)
       = Panic "TLS declaration is missing valid protocols").
Proof.
  intros K. unfold variant0.buildHandler. rewrite K. cbn [String.eqb].
  change (String.eqb "tls" "proxy") with false.
  change (String.eqb "tls" "tls") with true. cbv iota.
  unfold variant0.buildTLS, asStringSlice.
  split; [|split].
  - destruct (asString (Conf v !! "cert")), (asString (Conf v !! "key"));
      reflexivity.
  - destruct (asString (Conf v !! "cert")), (asString (Conf v !! "key"));
      now eexists.
  - intros cert key -> ->. reflexivity.
Qed.

Lemma oldest_factory_builds_no_tls_witness :
  variant0.buildHandler sampleEnv tlsProtocol initial
    = (Panic "TLS declaration is missing valid protocols", initial) /\
  fst (variant1.buildHandler sampleEnv tlsProtocol initial)
    = Ok (proto.NewTLS [ "h2"; "http/1.1" ] "cert.pem" "key.pem").
Proof.
  destruct (oldest_factory_builds_no_tls sampleEnv tlsProtocol initial
              eq_refl) as (Hw & _ & Hp).
  split; [|reflexivity].
  rewrite <- Hw at 2. rewrite <- (Hp "cert.pem" "key.pem" eq_refl eq_refl).
  now destruct (variant0.buildHandler sampleEnv tlsProtocol initial).
Defined.

(** ** More failures before the factory *)

(** X20: when the log file cannot be opened, [main] panics with the
    error of the open, right after the attempt: the socket is not
    opened, and neither the failure nor the panic is logged, since the
    configuration is read and no logger is set yet. *)
Theorem log_file_failure_is_silent (env : Env) (conf : Config)
    (bytes err : string) :
  (1 < length (Args env))%nat ->
  ReadFile env (nth 1 (Args env) "") = Success bytes ->
  Unmarshal env bytes = Success conf ->
  LogStdout conf = false ->
  LogFile conf <> "" ->
  OpenFile env (LogFile conf) = Failure err ->
  fst (mainBody env initial) = Panic err /\
  trace (main env)
    = [ EvReadFile (nth 1 (Args env) ""); EvOpenFile (LogFile conf) ].
Proof.
  intros A R U S F O. apply String.eqb_neq in F.
  assert (startup env initial
          = (Panic err,
             {| server := serve2.New; confReady := true; logger := false;
                logOutput := None;
                trace := [ EvReadFile (nth 1 (Args env) "");
                           EvOpenFile (LogFile conf) ] |})) as E.
  { unfold startup. apply Nat.ltb_lt in A. rewrite Nat.leb_antisym, A.
    unfold readFile, setConfReady, setServer, emit, logit. run.
    cbn [server confReady logger logOutput trace initial].
    rewrite R. run. rewrite U. run. rewrite S, F. cbn [negb andb orb when].
    run. cbn [server confReady logger logOutput trace]. rewrite O. run.
    reflexivity. }
  unfold main, mainBody. rewrite (bind_Panic _ _ _ _ _ E). now split.
Qed.

Lemma log_file_failure_is_silent_witness :
  fst (mainBody logDeniedEnv initial) = Panic "permission denied" /\
  trace (main logDeniedEnv)
    = [ EvReadFile "conf.json"; EvOpenFile "/var/log/serve2d.log" ].
Proof.
  apply (log_file_failure_is_silent logDeniedEnv fileLogConfig "{}"
           "permission denied"); try reflexivity.
  - cbn. lia.
  - discriminate.
Defined.

(** X21: when [net.Listen] fails, [main] panics with its error and no
    handler is built: after the attempt there are at most the two log
    lines, which are written exactly when logging is asked for. *)
Theorem listen_failure_ends_run (env : Env) (conf : Config)
    (bytes err : string) :
  (1 < length (Args env))%nat ->
  ReadFile env (nth 1 (Args env) "") = Success bytes ->
  Unmarshal env bytes = Success conf ->
  LogStdout conf && negb (String.eqb (LogFile conf) "") = false ->
  (LogFile conf <> "" -> OpenFile env (LogFile conf) = Success tt) ->
  Listen env (Address conf) = Failure err ->
  fst (mainBody env initial) = Panic err /\
  trace (main env)
    = [ EvReadFile (nth 1 (Args env) "") ]
      ++ (if String.eqb (LogFile conf) "" then []
          else [ EvOpenFile (LogFile conf) ])
      ++ (if logging conf
          then [ EvLog "Maximum buffer size: %d" [ LInt (readSize conf) ] ]
          else [])
      ++ [ EvListen (Address conf) false ]
      ++ (if logging conf
          then [ EvLog "Listen on [%s] failed" [ LStr (Address conf) ];
                 EvLog "Panicked: %s" [ LStr err ] ]
          else []).
Proof.
  intros A R U Both O L.
  unfold main, mainBody, startup.
  apply Nat.ltb_lt in A. rewrite Nat.leb_antisym, A. cbn [negb when].
  unfold readFile. run. cbn [emit initial]. rewrite R. run. rewrite U. run.
  unfold setConfReady, setServer, getServer, setLogger, setOutput, logit,
    emit, logging, readSize.
  cbn [server confReady logger logOutput trace].
  rewrite Both, L.
  destruct (LogStdout conf), (String.eqb (LogFile conf) "") eqn:F;
    try discriminate; cbn [negb andb orb when];
    try rewrite O by (now apply String.eqb_neq);
    destruct (MaxRead conf =? 0)%Z; now split.
Qed.

Lemma listen_failure_ends_run_witness :
  fst (mainBody busyEnv initial) = Panic "address already in use" /\
  trace (main busyEnv)
    = [ EvReadFile "conf.json";
        EvLog "Maximum buffer size: %d" [ LInt 128 ];
        EvListen ":80" false;
        EvLog "Listen on [%s] failed" [ LStr ":80" ];
        EvLog "Panicked: %s" [ LStr "address already in use" ] ].
Proof.
  apply (listen_failure_ends_run busyEnv (configOf [ tlsProtocol ]) "{}"
           "address already in use"); try reflexivity.
  cbn. lia.
Defined.

(** ** The handler the factory builds, at work *)

(** X16: for a request path that begins with a slash, whatever the
    method and whatever the file system holds, every file [ServeHTTP]
    tries to read is under the root (when the path cleans to the root,
    provided the default file holds no [..]). *)
Theorem ServeHTTP_reads_under_root (h : httpHandler)
    (fs : string -> result string) (r : Request) :
  path.rooted (URLPath r) = true ->
  (path.Clean (URLPath r) = "/" ->
   forallb notDotDot (path.split (defaultFile h)) = true) ->
  forallb (underRoot (path h)) (reads (ServeHTTP h fs r)) = true.
Proof.
  intros R D. unfold ServeHTTP.
  destruct (String.eqb (Method r) "OPTIONS"); [reflexivity|].
  destruct (fs (resolve h (URLPath r))); cbn [reads forallb];
    now rewrite (rooted_request_stays_under_root h (URLPath r) R D).
Qed.

Lemma ServeHTTP_reads_under_root_witness :
  reads (ServeHTTP siteHandler (ReadFile sampleEnv)
           {| Method := "GET"; URLPath := "/../../etc/./passwd" |})
    = [ "/srv/http/etc/passwd" ] /\
  forallb (underRoot (path siteHandler))
    (reads (ServeHTTP siteHandler (ReadFile sampleEnv)
              {| Method := "GET"; URLPath := "/../../etc/./passwd" |}))
    = true.
Proof.
  split; [reflexivity|].
  apply ServeHTTP_reads_under_root; [reflexivity | discriminate].
Defined.

(** X22: a file handler built without a [defaultFile] option answers
    the request path [/], for every method but [OPTIONS], from
    [index.html] under its configured path: the file is read once, a
    successful read is sent with status 200, a failed one is answered
    with status 404. *)
Theorem built_handler_serves_index (env : Env) (v : Protocol)
    (w w' : World) (h : proto.ProtocolHandler) (root : string) :
  Kind v = "http" ->
  Conf v !! "path" = Some (DStr root) ->
  Conf v !! "defaultFile" = None ->
  buildHandler env v w = (Ok h, w') ->
  exists hh,
    h = proto.NewHTTP hh /\
    forall fs r,
      Method r <> "OPTIONS" ->
      URLPath r = "/" ->
      let file := path.Join [ root; "./index.html" ] in
      reads (ServeHTTP hh fs r) = [ file ] /\
      (forall content,
         fs file = Success content ->
         finalStatus (resp (ServeHTTP hh fs r)) = 200%Z /\
         body (resp (ServeHTTP hh fs r)) = content) /\
      (forall err,
         fs file = Failure err ->
         finalStatus (resp (ServeHTTP hh fs r)) = 404%Z /\
         body (resp (ServeHTTP hh fs r)) = notFoundMsg hh).
Proof.
  intros K P D B. rewrite (buildHandler_http env v K) in B.
  apply buildHTTP_Ok in B as (hh & -> & Hp & Hd & _).
  exists hh. split; [reflexivity|]. intros fs r NE U file.
  rewrite P in Hp. injection Hp as ->. specialize (Hd D).
  assert (resolve hh (URLPath r) = file) as E.
  { rewrite U, root_request_default_file, Hd. reflexivity. }
  unfold ServeHTTP. apply String.eqb_neq in NE. rewrite NE, E.
  split; [now destruct (fs file)|]. split.
  - intros content ->. now split.
  - intros err ->. now split.
Qed.

Lemma built_handler_serves_index_witness :
  exists hh,
    buildHandler sampleEnv httpNeither initial = (Ok (proto.NewHTTP hh), initial)
    /\ reads (ServeHTTP hh (ReadFile sampleEnv)
                {| Method := "HEAD"; URLPath := "/" |})
       = [ "/srv/http/index.html" ]
    /\ body (resp (ServeHTTP hh (ReadFile sampleEnv)
                     {| Method := "HEAD"; URLPath := "/" |}))
       = "contents of /srv/http/index.html".
Proof.
  destruct (built_handler_serves_index sampleEnv httpNeither initial initial
              _ "/srv/http" eq_refl eq_refl eq_refl eq_refl)
    as (hh & Hh & Hs).
  exists hh. split; [now rewrite <- Hh|].
  destruct (Hs (ReadFile sampleEnv) {| Method := "HEAD"; URLPath := "/" |})
    as (Hr & Hok & _); [discriminate | reflexivity |].
  split; [exact Hr|]. now apply Hok.
Defined.

Lemma socket_opened_iff_started_witness :
  listenerOpened (main gopherEnv).
Proof.
  apply socket_opened_iff_started.
  exists (configOf [ sshProxy; gopher ]). now apply starts_sample.
Defined.

Lemma serves_iff_all_built_witness :
  served (main (envOf (configOf twoDefaults))) /\ ~ served (main gopherEnv).
Proof.
  split.
  - apply serves_iff_all_built. eexists (configOf twoDefaults), _.
    split; [now apply starts_sample | repeat constructor].
  - intros H. apply serves_iff_all_built in H as (conf & hs & St & F).
    assert (conf = configOf [ sshProxy; gopher ]) as ->
      by (apply (starts_unique gopherEnv); [exact St | now apply starts_sample]).
    apply allBuilt_Forall2 in F. discriminate.
Defined.

Lemma resolve_canonical_witness :
  resolve siteHandler "/a//b/../c/" = resolve siteHandler "/a/c" /\
  resolve siteHandler "/a/c" = "/srv/http/a/c".
Proof.
  split; [|reflexivity].
  now apply (resolve_canonical siteHandler "/a//b/../c/" "/a/c").
Defined.
